(** * Midea dehumidifier: command codec, response decoder and cloud retry policy

    Shallow embedding of [midea_beautiful_dehumidifier/command.py] and of the
    cloud request state machine exercised by [tests/test_cloud.py].

    Bytes are integers in [0, 256); a [bytearray] is a [list Z] indexed with
    stdpp's lookup and insert, with Python's [IndexError] and [ValueError]
    written out.  The module global [_order] and the receiver's [self.data]
    are threaded through a small state-and-exception monad. *)

From Stdlib Require Import ZArith Lia Bool String.
From stdpp Require Import base option list strings gmap.

Local Open Scope Z_scope.

(** ** Python runtime: exceptions, bytearrays, module state *)

Inductive exn : Type :=
| IndexError
| ValueError.

(** What running a piece of Python yields: a value or a raised exception. *)
Inductive outcome (E A : Type) : Type :=
| Ok (a : A)
| Raise (e : E).
Arguments Ok {E A} a.
Arguments Raise {E A} e.

(** Code that may raise and that reads and writes a store of type [S]. *)
Definition ST (S E A : Type) : Type := S -> outcome E A * S.

Global Instance ST_ret {S E} : MRet (ST S E) := fun A a s => (Ok a, s).

Global Instance ST_bind {S E} : MBind (ST S E) := fun A B k m s =>
  match m s with
  | (Ok a, s') => k a s'
  | (Raise e, s') => (Raise e, s')
  end.

Definition throw {S E A} (e : E) : ST S E A := fun s => (Raise e, s).

(** [_order] is the module-level global of command.py; [data] is the
    [self.data] bytearray of the command object a method is called on. *)
Record state : Type := State { _order : Z; data : list Z }.

Abbreviation M := (ST state exn).

Definition get_order : M Z := fun s => (Ok (_order s), s).

Definition set_order (v : Z) : M unit := fun s => (Ok tt, State v (data s)).

(** [self.data[i]] for a non-negative literal index. *)
Definition getitem (i : nat) : M Z :=
  fun s =>
    match data s !! i with
    | Some b => (Ok b, s)
    | None => (Raise IndexError, s)
    end.

(** [self.data[i] = v]: the index is checked first, then the byte range. *)
Definition setitem (i : nat) (v : Z) : M unit :=
  fun s =>
    if decide (i < length (data s))%nat then
      if decide (0 <= v < 256) then (Ok tt, State (_order s) (<[i := v]> (data s)))
      else (Raise ValueError, s)
    else (Raise IndexError, s).

(** [l[a:b]] for non-negative literal bounds; slicing never raises. *)
Definition slice (a b : nat) (l : list Z) : list Z := take (b - a) (drop a l).

Definition getslice (a b : nat) : M (list Z) :=
  fun s => (Ok (slice a b (data s)), s).

(** [bytes(self.data)] *)
Definition to_bytes : M (list Z) := fun s => (Ok (data s), s).

(** Python's built-in [sum], a left fold starting from 0. *)
Definition sum (l : list Z) : Z := fold_left Z.add l 0.

(** ** class DehumidifierStatusCommand *)

Module DehumidifierStatusCommand.

(** [self.data] as the constructor builds it: ten header bytes (message type
    0x03, query, at offset 9), the payload bytes 0 to 7, twelve further zero
    payload bytes, and the message id, CRC8 and checksum bytes, all zero. *)
Definition __init__ : list Z :=
  [ 0xAA; 0x20; 0xA1; 0x00; 0x00; 0x00; 0x00; 0x00; 0x03; 0x03 ] ++
  [ 0x41; 0x81; 0x00; 0xFF; 0x03; 0xFF; 0x00; 0x02 ] ++
  replicate 12 0x00 ++
  [ 0x00; 0x00; 0x00 ].

Section Finalize.
(** [crc8] is imported from [midea_beautiful_dehumidifier.crypto]. *)
Variable crc8 : list Z -> Z.

Definition finalize : M (list Z) :=
  o ← get_order;
  set_order (Z.land (o + 1) 0xFF);;
  o' ← get_order;
  setitem 30 o';;
  body ← getslice 10 31;
  setitem 31 (crc8 body);;
  summed ← getslice 1 32;
  setitem 32 (Z.land (Z.lnot (sum summed) + 1) 0xFF);;
  to_bytes.
End Finalize.

End DehumidifierStatusCommand.

(** ** class DehumidifierSetCommand *)

Module DehumidifierSetCommand.

(** [self.data] as the constructor builds it: ten header bytes (message type
    0x02, set, at offset 9), the payload with the flags at offset 11, the mode
    at 12, the fan speed at 13 and the humidity at 17, twelve further zero
    bytes (offsets 18 to 29), and three zero bytes at offsets 30 to 32. *)
Definition __init__ : list Z :=
  [ 0xAA; 0x20; 0xA1; 0x00; 0x00; 0x00; 0x00; 0x00; 0x03; 0x02 ] ++
  [ 0x48; 0x00; 0x01; 0x32; 0x00; 0x00; 0x00; 0x00 ] ++
  replicate 12 0x00 ++
  [ 0x00; 0x00; 0x00 ].

Section Finalize.
Variable crc8 : list Z -> Z.

Definition finalize : M (list Z) :=
  o ← get_order;
  set_order (Z.land (o + 1) 0xFF);;
  o' ← get_order;
  setitem 30 o';;
  body ← getslice 10 31;
  setitem 31 (crc8 body);;
  summed ← getslice 1 32;
  setitem 32 (Z.land (Z.lnot (sum summed) + 1) 0xFF);;
  to_bytes.
End Finalize.

(** Property getters. *)
Definition is_on : M bool :=
  b ← getitem 11; mret (negb (Z.land b 0x01 =? 0)).

Definition ion_mode : M bool :=
  b ← getitem 19; mret (negb (Z.land b 0x60 =? 0)).

Definition target_humidity : M Z :=
  b ← getitem 17; mret (Z.land b 0x7F).

Definition mode : M Z :=
  b ← getitem 12; mret (Z.land b 0x0F).

Definition fan_speed : M Z :=
  b ← getitem 13; mret (Z.land b 0x7F).

(** Property setters: each is an [&=] followed by an [|=], both augmented
    assignments on one element of the bytearray. *)
Definition set_is_on (state : bool) : M unit :=
  b ← getitem 11; setitem 11 (Z.land b (Z.lnot 0x01));;
  b ← getitem 11; setitem 11 (Z.lor b (if state then 0x01 else 0)).

Definition set_ion_mode (mode : bool) : M unit :=
  b ← getitem 19; setitem 19 (Z.land b (Z.lnot 0x60));;
  b ← getitem 19; setitem 19 (Z.lor b (if mode then 0x60 else 0)).

Definition set_target_humidity (humidity : Z) : M unit :=
  b ← getitem 17; setitem 17 (Z.land b (Z.lnot 0x7F));;
  b ← getitem 17; setitem 17 (Z.lor b humidity).

Definition set_mode (mode : Z) : M unit :=
  b ← getitem 12; setitem 12 (Z.land b (Z.lnot 0x0F));;
  b ← getitem 12; setitem 12 (Z.lor b mode).

Definition set_fan_speed (speed : Z) : M unit :=
  b ← getitem 13; setitem 13 (Z.land b (Z.lnot 0x7F));;
  b ← getitem 13; setitem 13 (Z.lor b speed).

End DehumidifierSetCommand.

(** ** class DehumidifierResponse *)

(** Indexing an immutable [bytes] value; decoding has no state to thread. *)
Global Instance outcome_ret {E} : MRet (outcome E) := fun A a => Ok a.

Global Instance outcome_bind {E} : MBind (outcome E) := fun A B k m =>
  match m with
  | Ok a => k a
  | Raise e => Raise e
  end.

Definition index (data : list Z) (i : nat) : outcome exn Z :=
  match data !! i with
  | Some b => Ok b
  | None => Raise IndexError
  end.

Module DehumidifierResponse.

(** The attributes assigned by the constructor. *)
Record t : Type := Build {
  _is_on : bool;
  _mode : Z;
  _fan_speed : Z;
  on_timer_value : Z;
  on_timer_minutes : Z;
  off_timer_value : Z;
  off_timer_minutes : Z;
  _target_humidity : Z;
  _ion_mode : bool;
  _tank_full : bool;
  _current_humidity : Z;
  _err_code : Z
}.

(** The constructor reads the buffer in source order; the first index past
    the end raises [IndexError] and no object is constructed.  The closing
    logging loop has no effect on the object. *)
Definition __init__ (data : list Z) : outcome exn t :=
  b ← index data 0x04;
  let _is_on := negb (Z.land b 1 =? 0) in
  b ← index data 0x02;
  let _mode := Z.land b 15 in
  b ← index data 0x03;
  let _fan_speed := Z.land b 0x7F in
  on_timer_value ← index data 0x04;
  on_timer_minutes ← index data 0x06;
  off_timer_value ← index data 0x05;
  off_timer_minutes ← index data 0x06;
  _target_humidity ← index data 0x07;
  let _target_humidity :=
    if 100 <? _target_humidity then 99 else _target_humidity in
  b ← index data 0x09;
  let _ion_mode := negb (Z.shiftr (Z.land b 64) 6 =? 0) in
  b ← index data 0x0A;
  let _tank_full := 100 <=? Z.land b 0x7F in
  _current_humidity ← index data 0x10;
  _err_code ← index data 0x15;
  mret (Build _is_on _mode _fan_speed on_timer_value on_timer_minutes
          off_timer_value off_timer_minutes _target_humidity _ion_mode
          _tank_full _current_humidity _err_code).

(** The dictionaries returned by the [on_timer] and [off_timer] properties;
    the last two fields are the ["on_timer_value"]/["on_timer_minutes"]
    (resp. ["off_..."]) entries. *)
Record timer : Type := Timer {
  status : bool;
  set : bool;
  hour : Z;
  minutes : Z;
  timer_value : Z;
  timer_minutes : Z
}.

Definition on_timer (self : t) : timer :=
  Timer
    (negb (Z.land (on_timer_value self) 0x80 =? 0))
    (negb (on_timer_value self =? 0x7F))
    (if negb (on_timer_value self =? 0x7F)
     then Z.shiftr (Z.land (on_timer_value self) 0x7C) 2
     else 0)
    (Z.lor (Z.land (on_timer_value self) 0x3)
           (if negb (on_timer_value self =? 0x7F)
            then Z.shiftr (Z.land (on_timer_minutes self) 0xF0) 4
            else 0))
    (on_timer_value self)
    (on_timer_minutes self).

Definition off_timer (self : t) : timer :=
  Timer
    (negb (Z.land (off_timer_value self) 0x80 =? 0))
    (negb (off_timer_value self =? 0x7F))
    (Z.shiftr (Z.land (off_timer_value self) 0x7C) 2)
    (Z.lor (Z.land (off_timer_value self) 0x3)
           (Z.land (off_timer_minutes self) 0xF))
    (off_timer_value self)
    (off_timer_minutes self).

End DehumidifierResponse.

(** ** class MideaCloud: the request state machine

    Of [midea_beautiful/cloud.py] only the tests are available
    ([tests/test_cloud.py]).  Payload contents, encryption and
    signatures are left out: as in the tests' [request_history], a request is
    identified by the endpoint it is posted to. *)

Module MideaCloud.

(** Modelled from the spec: the error taxonomy of section 7 (the exception
    classes of [midea_beautiful/exceptions.py], which is missing). *)
Inductive error : Type :=
| CloudError (error_code : Z) (message : string)
| CloudAuthenticationError (error_code : Z) (message : string)
| RetryLaterError (error_code : Z) (message : string)
| CloudRequestError (message : string).

(** Modelled from the spec: the response envelope
    [{errorCode, msg?, result?}] of section 6; an absent [errorCode] reads
    as 0, an absent [msg] as the empty string. *)
Record envelope : Type := Envelope {
  errorCode : Z;
  msg : string;
  result : option string
}.

(** Modelled from the spec: what the blocking HTTP primitive hands back, an
    envelope or a network-level failure with its cause. *)
Inductive response : Type :=
| Reply (e : envelope)
| Failure (cause : string).

(** Modelled from the spec: the mutable state of a cloud client (the
    Session of section 3 and the appliance-list cache), together with the
    list of endpoints posted so far. *)
Record client : Type := Client {
  _session : option (string * string);
  _appliance_list : option string;
  request_history : list string
}.

(** Modelled from the spec: the classes of [errorCode] in step 3 of
    section 4.3.  Class [Ignored] is not in the spec: it is read off
    [test_request_too_many_retries], where a cloud answering 9999 to every
    request makes [api_request] give up with "Too many retries". *)
Inductive error_class : Type :=
| Success
| SessionInvalid
| FullRestart
| AuthenticationFailure
| RetryLater
| Ignored
| Other.

(** Modelled from the spec: the code of each class, as step 3 of section 4.3
    lists them; 9999 as said above. *)
Definition classify (code : Z) : error_class :=
  if code =? 0 then Success
  else if code =? 3106 then SessionInvalid
  else if code =? 3144 then FullRestart
  else if code =? 3102 then AuthenticationFailure
  else if code =? 7610 then RetryLater
  else if code =? 9999 then Ignored
  else Other.

Section Requests.
(** Modelled from the spec: the vendor cloud behind the HTTP primitive, as
    its answer to a request given the endpoints posted before it. *)
Variable cloud : list string -> string -> response.
(** Modelled from the spec: the "fixed small number" of restart attempts
    of step 4 of section 4.3. *)
Variable max_retries : nat.

Abbreviation C := (ST client error).

(** Modelled from the spec: the HTTP POST of step 2. *)
Definition post (endpoint : string) : C response :=
  fun c =>
    (Ok (cloud (request_history c) endpoint),
     Client (_session c) (_appliance_list c)
            (request_history c ++ [endpoint])).

(** Modelled from the spec: the exception of a non-zero envelope that is
    not answered by a restart. *)
Definition raise_for (e : envelope) : error :=
  match classify (errorCode e) with
  | AuthenticationFailure => CloudAuthenticationError (errorCode e) (msg e)
  | RetryLater => RetryLaterError (errorCode e) (msg e)
  | _ => CloudError (errorCode e) (msg e)
  end.

(** Modelled from the spec: the request error of step 5 of section 4.3,
    carrying the cause and the endpoint; the wording of the message is the one
    [test_request_exception] expects. *)
Definition request_error (cause endpoint : string) : error :=
  CloudRequestError ("Request error " ++ cause ++ " while calling " ++ endpoint).

(** Modelled from the spec: the error of an exhausted retry budget, step 4 of
    section 4.3; the wording of the message is the one
    [test_request_too_many_retries] expects. *)
Definition too_many_retries (endpoint : string) : error :=
  CloudRequestError ("Too many retries while calling " ++ endpoint).

(** Modelled from the spec: one request of a login or refresh sequence;
    anything but a successful envelope is raised to the caller. *)
Definition fetch (endpoint : string) : C string :=
  r ← post endpoint;
  match r with
  | Failure cause => throw (request_error cause endpoint)
  | Reply e =>
      if errorCode e =? 0 then mret (default ""%string (result e))
      else throw (raise_for e)
  end.

(** Modelled from the spec: replacing the Session, or discarding it. *)
Definition set_session (s : option (string * string)) : C unit :=
  fun c => (Ok tt, Client s (_appliance_list c) (request_history c)).

(** Modelled from the spec: refreshing the appliance-list cache. *)
Definition set_appliance_list (l : option string) : C unit :=
  fun c => (Ok tt, Client (_session c) l (request_history c)).

(** Modelled from the spec: login, step 1 of section 4.3: fetch the
    loginId, then exchange it for the session, and store both. *)
Definition login : C unit :=
  login_id ← fetch "user/login/id/get";
  session ← fetch "user/login";
  set_session (Some (login_id, session)).

(** Modelled from the spec: "if authenticate and no valid session exists,
    perform login". *)
Definition authenticate (wanted : bool) : C unit :=
  fun c =>
    match wanted, _session c with
    | true, None => login c
    | _, _ => (Ok tt, c)
    end.

(** Modelled from the spec: the refresh of a full restart, the home group
    and then its appliance list. *)
Definition list_appliances : C unit :=
  fetch "homegroup/list/get";;
  l ← fetch "appliance/list/get";
  set_appliance_list (Some l).

(** Modelled from the spec: steps 2 to 4 of section 4.3, with [budget]
    restart attempts left. *)
Fixpoint request (budget : nat) (endpoint : string) : C (option string) :=
  r ← post endpoint;
  match r with
  | Failure cause => throw (request_error cause endpoint)
  | Reply e =>
      match classify (errorCode e) with
      | Success => mret (result e)
      | SessionInvalid =>
          match budget with
          | O => throw (too_many_retries endpoint)
          | S budget' =>
              set_session None;; login;; request budget' endpoint
          end
      | FullRestart =>
          match budget with
          | O => throw (too_many_retries endpoint)
          | S budget' =>
              set_session None;; login;; list_appliances;;
              request budget' endpoint
          end
      | Ignored =>
          match budget with
          | O => throw (too_many_retries endpoint)
          | S budget' => request budget' endpoint
          end
      | AuthenticationFailure | RetryLater | Other => throw (raise_for e)
      end
  end.

(** Modelled from the spec: [apiRequest(endpoint, payload, authenticate)]
    of section 4.3. *)
Definition api_request (endpoint : string) (wanted : bool) : C (option string) :=
  authenticate wanted;; request max_retries endpoint.

End Requests.

End MideaCloud.

(** ** midea_beautiful/cli.py: the command line commands

    [args] is an [argparse.Namespace], modelled by the dictionary [vars(args)]:
    reading an attribute is a lookup that raises AttributeError on a missing
    name.  [connect_to_cloud], [appliance_state], the type of an appliance's
    state and the methods [set_state] and [_output] belong to modules that are
    not modelled: the first three are parameters, and every call that leaves
    cli.py is recorded, in order, in a list of calls.  Log messages are left
    out, and so are exceptions raised by the callees. *)

Module Cli.

Local Open Scope string_scope.
Local Open Scope list_scope.

(** The Python values that occur as attributes of [args]. *)
Inductive pyval : Type :=
| PyNone
| PyStr (s : string)
| PyBool (b : bool)
| PyObj (n : nat).

Global Instance pyval_eq_dec : EqDecision pyval.
Proof. solve_decision. Defined.

(** Truth value testing: None, the empty string and False are false. *)
Definition truthy (v : pyval) : bool :=
  match v with
  | PyNone => false
  | PyStr s => negb (String.eqb s "")
  | PyBool b => b
  | PyObj _ => true
  end.

Definition is_not_none (v : pyval) : bool :=
  match v with PyNone => false | _ => true end.

Abbreviation Namespace := (gmap string pyval).

(** What [getattr(typ, attr)] is for an attribute [attr] of [dir(typ)]: a
    property, with or without a setter ([fset]), or anything else. *)
Inductive attribute : Type :=
| Property (fset : bool)
| Other.

(** The keyword arguments of a call of [appliance_state]; [None] is a keyword
    that the call does not pass. *)
Record appliance_state_kwargs : Type := Kwargs {
  kw_address : pyval;
  kw_token : option pyval;
  kw_key : option pyval;
  kw_cloud : option pyval;
  kw_use_cloud : option pyval;
  kw_appliance_id : pyval
}.

Inductive cli_exn : Type :=
| AttributeError
| KeyError.

Section Commands.
(** A [LanDevice]; [state_type d] lists [dir(type(d.state))] in order, each
    name with what [getattr] gives for it. *)
Variable LanDevice : Type.
Variable state_type : LanDevice -> list (string * attribute).
Variable connect_to_cloud : pyval -> pyval -> pyval -> pyval -> pyval.
Variable appliance_state : appliance_state_kwargs -> option LanDevice.

(** The calls that leave cli.py. *)
Inductive call : Type :=
| ConnectToCloud (account password appkey appid : pyval)
| ApplianceState (kwargs : appliance_state_kwargs)
| Output (appliance : LanDevice) (show_credentials : pyval)
| SetState (appliance : LanDevice) (set_args : gmap string pyval).

Abbreviation CLI := (ST (list call) cli_exn).

Definition record (c : call) : CLI unit := fun calls => (Ok tt, calls ++ [c]).

(** [args.<name>] *)
Definition attr (args : Namespace) (name : string) : CLI pyval :=
  match args !! name with
  | Some v => mret v
  | None => throw AttributeError
  end.

(** [args.<a> and args.<b>], as a truth value: the second attribute is read
    only when the first is true. *)
Definition attr_and (args : Namespace) (a b : string) : CLI bool :=
  x ← attr args a;
  if truthy x then y ← attr args b; mret (truthy y) else mret false.

(** [not args.<a> and not args.<b>] *)
Definition attr_neither (args : Namespace) (a b : string) : CLI bool :=
  x ← attr args a;
  if negb (truthy x) then y ← attr args b; mret (negb (truthy y)) else mret false.

Definition _check_ip_id (args : Namespace) : CLI bool :=
  both ← attr_and args "ip" "id";
  if (both : bool) then mret false
  else
    neither ← attr_neither args "ip" "id";
    if (neither : bool) then mret false else mret true.

(** [connect_to_cloud(args.account, args.password, args.appkey, args.appid)]
    followed by [appliance_state(address=args.ip, cloud=cloud,
    use_cloud=args.cloud, appliance_id=args.id)]. *)
Definition state_through_cloud (args : Namespace) : CLI (pyval * option LanDevice) :=
  account ← attr args "account";
  password ← attr args "password";
  appkey ← attr args "appkey";
  appid ← attr args "appid";
  record (ConnectToCloud account password appkey appid);;
  let cloud := connect_to_cloud account password appkey appid in
  ip ← attr args "ip";
  use_cloud ← attr args "cloud";
  id ← attr args "id";
  let kwargs := Kwargs ip None None (Some cloud) (Some use_cloud) id in
  record (ApplianceState kwargs);;
  mret (cloud, appliance_state kwargs).

(** [appliance_state(address=args.ip, token=args.token, key=args.key,
    appliance_id=args.id)] *)
Definition state_with_token (args : Namespace) : CLI (option LanDevice) :=
  ip ← attr args "ip";
  token ← attr args "token";
  key ← attr args "key";
  id ← attr args "id";
  let kwargs := Kwargs ip (Some token) (Some key) None None id in
  record (ApplianceState kwargs);;
  mret (appliance_state kwargs).

Definition _run_status_command (args : Namespace) : CLI Z :=
  ok ← _check_ip_id args;
  if negb (ok : bool) then mret 7
  else
    token ← attr args "token";
    found ←
      (if negb (truthy token) then
         credentials ← attr_and args "account" "password";
         if (credentials : bool) then
           r ← state_through_cloud args; mret (Some (snd r))
         else mret None
       else
         appliance ← state_with_token args; mret (Some appliance));
    match found with
    | None => mret 8
    | Some (Some appliance) =>
        show_credentials ← attr args "credentials";
        record (Output appliance show_credentials);;
        mret 0
    | Some None => mret 9
    end.

Definition _COMMON_ARGUMENTS : list string :=
  [ "account"; "appid"; "appkey"; "cloud"; "command"; "credentials"; "id";
    "ip"; "key"; "loglevel"; "password"; "token" ].

Definition _EXCLUDED_PROPERTIES : list string := [ "name" ].

(** [for arg in _COMMON_ARGUMENTS: all_args.pop(arg)]: a missing key raises
    KeyError. *)
Fixpoint pop_common (keys : list string) (all_args : gmap string pyval) :
    CLI (gmap string pyval) :=
  match keys with
  | [] => mret all_args
  | arg :: keys =>
      match all_args !! arg with
      | Some _ => pop_common keys (delete arg all_args)
      | None => throw KeyError
      end
  end.

(** [not attr.startswith("_") and attr not in _EXCLUDED_PROPERTIES] *)
Definition public (attr : string) : bool :=
  negb (String.prefix "_" attr) && negb (bool_decide (attr ∈ _EXCLUDED_PROPERTIES)).

(** The loop over [dir(typ)] either returns from the function or ends with
    the two dictionaries as it leaves them. *)
Inductive scanned : Type :=
| Returned (code : Z)
| Scanned (all_args set_args : gmap string pyval).

Fixpoint scan (typ : list (string * attribute))
    (all_args set_args : gmap string pyval) : scanned :=
  match typ with
  | [] => Scanned all_args set_args
  | (attr, prop_candidate) :: typ =>
      if public attr then
        match all_args !! attr with
        | Some v =>
            if is_not_none v then
              match prop_candidate with
              | Property true =>
                  scan typ (delete attr all_args) (<[attr := v]> set_args)
              | Property false => Returned 10
              | Other => scan typ (delete attr all_args) set_args
              end
            else scan typ (delete attr all_args) set_args
        | None => scan typ (delete attr all_args) set_args
        end
      else scan typ (delete attr all_args) set_args
  end.

(** [unused_args]: the names left with a value.  Python lists them in
    insertion order, the model in the order of the map; only the length of
    the list is looked at. *)
Definition unused_args (all_args : gmap string pyval) : list string :=
  (filter (fun kv => is_not_none (snd kv) = true) (map_to_list all_args)).*1.

Definition _process_attr_arguments (args : Namespace) (appliance : LanDevice)
    (cloud : pyval) : CLI Z :=
  all_args ← pop_common _COMMON_ARGUMENTS args;
  match scan (state_type appliance) all_args ∅ with
  | Returned code => mret code
  | Scanned all_args set_args =>
      if decide (0 < length (unused_args all_args))%nat then mret 11
      else
        let set_args :=
          if truthy cloud then <["cloud" := cloud]> set_args else set_args in
        record (SetState appliance set_args);;
        show_credentials ← attr args "credentials";
        record (Output appliance show_credentials);;
        mret 0
  end.

Definition _run_set_command (args : Namespace) : CLI Z :=
  ok ← _check_ip_id args;
  if negb (ok : bool) then mret 7
  else
    token ← attr args "token";
    found ←
      (if negb (truthy token) then
         credentials ← attr_and args "account" "password";
         if (credentials : bool) then
           r ← state_through_cloud args; mret (Some r)
         else mret None
       else
         appliance ← state_with_token args; mret (Some (PyNone, appliance)));
    match found with
    | None => mret 8
    | Some (_, None) => mret 9
    | Some (cloud, Some appliance) => _process_attr_arguments args appliance cloud
    end.

End Commands.

End Cli.

(** ** Properties stated about the codec *)

(** A value a [bytes] or [bytearray] element can hold. *)
Definition byte (b : Z) : Prop := 0 <= b < 256.

(** A command as the constructors build it: 33 bytes. *)
Definition well_formed (s : state) : Prop :=
  length (data s) = 33%nat /\ Forall byte (data s).

(** The shape every setter of [DehumidifierSetCommand] has: clear the bits of
    [mask] in byte [i], then or [v] into that byte. *)
Definition assign_field (i : nat) (mask v : Z) : M unit :=
  b ← getitem i; setitem i (Z.land b (Z.lnot mask));;
  b ← getitem i; setitem i (Z.lor b v).

(** Running [m] from [s] succeeds and changes nothing but bits of [mask] in
    byte [i] of the buffer. *)
Definition only_masked_bits_change (i : nat) (mask : Z) (m : M unit) (s : state) : Prop :=
  exists s', m s = (Ok tt, s') /\
    _order s' = _order s /\
    length (data s') = length (data s) /\
    (forall j, j <> i -> data s' !! j = data s !! j) /\
    exists b b', data s !! i = Some b /\ data s' !! i = Some b' /\
      forall n, 0 <= n -> Z.testbit mask n = false -> Z.testbit b' n = Z.testbit b n.

(** Reading a property from wire bytes: its getter run on a command whose
    buffer holds them. *)
Definition read_back {A} (getter : M A) (wire : list Z) : outcome exn A :=
  fst (getter (State 0 wire)).

(** Assigning through [setter], finalizing with [finalize] and reading the
    wire bytes with [getter] gives [v] back. *)
Definition round_trips {A} (finalize : M (list Z)) (setter : M unit)
    (getter : M A) (v : A) (s : state) : Prop :=
  exists wire s', (setter;; finalize) s = (Ok wire, s') /\
    read_back getter wire = Ok v.

(** The buffer [finalize] leaves behind and returns, written without the
    monad. *)
Definition finalized (crc8 : list Z -> Z) (s : state) : list Z :=
  let d1 := <[30%nat := Z.land (_order s + 1) 0xFF]> (data s) in
  let d2 := <[31%nat := crc8 (slice 10 31 d1)]> d1 in
  <[32%nat := Z.land (Z.lnot (sum (slice 1 32 d2)) + 1) 0xFF]> d2.

(** A byte-valued function of a byte string, standing in for [crc8] where a
    concrete one is called for. *)
Definition sum8 (l : list Z) : Z := Z.land (sum l) 0xFF.

(** ** The mocked clouds of tests/test_cloud.py

    [requests_mock] answers an endpoint that was not registered with a
    connection error. *)

Definition no_mock_address : MideaCloud.response :=
  MideaCloud.Failure "No mock address".



(** [test_session_restart]: the first request to [dummy] is answered with
    error 3106, the later ones with [{"result": "response text"}]; the two
    login endpoints and the home group list answer with success. *)
Definition session_restart_cloud (history : list string) (endpoint : string) :
    MideaCloud.response :=
  if String.eqb endpoint "dummy" then
    if existsb (String.eqb "dummy") history
    then MideaCloud.Reply (MideaCloud.Envelope 0 "" (Some "response text"%string))
    else MideaCloud.Reply (MideaCloud.Envelope 3106 "session restart" None)
  else if String.eqb endpoint "user/login/id/get" then
    MideaCloud.Reply (MideaCloud.Envelope 0 "" (Some "test-login"%string))
  else if String.eqb endpoint "user/login" then
    MideaCloud.Reply (MideaCloud.Envelope 0 "" (Some "session-1"%string))
  else if String.eqb endpoint "homegroup/list/get" then
    MideaCloud.Reply (MideaCloud.Envelope 0 "" (Some "test-login"%string))
  else no_mock_address.

(** A client as the [cloud_client] fixture builds it: no session, empty
    caches, nothing requested yet. *)
Definition cloud_client : MideaCloud.client := MideaCloud.Client None None [].

(** ** A set command seen through its properties *)

(** What the five property getters of a set command return, read one after
    the other. *)
Record fields : Type := Fields {
  fields_is_on : bool;
  fields_ion_mode : bool;
  fields_target_humidity : Z;
  fields_mode : Z;
  fields_fan_speed : Z
}.

Definition read_fields : M fields :=
  on ← DehumidifierSetCommand.is_on;
  ion ← DehumidifierSetCommand.ion_mode;
  humidity ← DehumidifierSetCommand.target_humidity;
  mode ← DehumidifierSetCommand.mode;
  speed ← DehumidifierSetCommand.fan_speed;
  mret (Fields on ion humidity mode speed).

(** One property assignment [cmd.<property> = <value>] on a set command. *)
Inductive assignment : Type :=
| IsOn (state : bool)
| IonMode (mode : bool)
| TargetHumidity (humidity : Z)
| Mode (mode : Z)
| FanSpeed (speed : Z).

Definition assign (a : assignment) : M unit :=
  match a with
  | IsOn state => DehumidifierSetCommand.set_is_on state
  | IonMode mode => DehumidifierSetCommand.set_ion_mode mode
  | TargetHumidity humidity => DehumidifierSetCommand.set_target_humidity humidity
  | Mode mode => DehumidifierSetCommand.set_mode mode
  | FanSpeed speed => DehumidifierSetCommand.set_fan_speed speed
  end.

(** The byte an assignment writes, the mask it clears there and the value it
    ors in, as the setters have them. *)
Definition offset_of (a : assignment) : nat :=
  match a with
  | IsOn _ => 11 | IonMode _ => 19 | TargetHumidity _ => 17
  | Mode _ => 12 | FanSpeed _ => 13
  end%nat.

Definition mask_of (a : assignment) : Z :=
  match a with
  | IsOn _ => 0x01 | IonMode _ => 0x60 | TargetHumidity _ => 0x7F
  | Mode _ => 0x0F | FanSpeed _ => 0x7F
  end.

Definition value_of (a : assignment) : Z :=
  match a with
  | IsOn state => if state then 0x01 else 0
  | IonMode mode => if mode then 0x60 else 0
  | TargetHumidity humidity => humidity
  | Mode mode => mode
  | FanSpeed speed => speed
  end.

(** The value assigned has no bit outside the mask of its field. *)
Definition fits (a : assignment) : Prop :=
  Z.land (value_of a) (mask_of a) = value_of a.

(** What the getters compute from the five bytes they index (offsets 11, 19,
    17, 12 and 13). *)
Definition fields_of_bytes (b11 b19 b17 b12 b13 : Z) : fields :=
  Fields (negb (Z.land b11 0x01 =? 0)) (negb (Z.land b19 0x60 =? 0))
         (Z.land b17 0x7F) (Z.land b12 0x0F) (Z.land b13 0x7F).

(** ** A response seen from the buffer *)

(** The offsets [DehumidifierResponse.__init__] indexes. *)
Definition read_offsets : list nat := [2; 3; 4; 5; 6; 7; 9; 10; 16; 21]%nat.

(** The payload of a command frame, the bytes after the ten header bytes:
    the region the comments of command.py number Byte0, Byte1, ... and the
    one a response is indexed in. *)
Definition payload (frame : list Z) : list Z := drop 10 frame.

(** The object the constructor builds from the ten bytes it indexes. *)
Definition response_of_bytes (b2 b3 b4 b5 b6 b7 b9 b10 b16 b21 : Z) :
    DehumidifierResponse.t :=
  DehumidifierResponse.Build
    (negb (Z.land b4 1 =? 0)) (Z.land b2 15) (Z.land b3 0x7F) b4 b6 b5 b6
    (if 100 <? b7 then 99 else b7)
    (negb (Z.shiftr (Z.land b9 64) 6 =? 0)) (100 <=? Z.land b10 0x7F) b16 b21.

(** Assigning through [setter], finalizing, and decoding the payload of the
    returned frame as a response gives an object with property [P]. *)
Definition decodes_with (finalize : M (list Z)) (setter : M unit) (s : state)
    (P : DehumidifierResponse.t -> Prop) : Prop :=
  exists wire s' r,
    (setter;; finalize) s = (Ok wire, s') /\
    DehumidifierResponse.__init__ (payload wire) = Ok r /\ P r.

(** ** The set command line seen from outside *)

(** Option [k] was given the value [v] on the command line: [k] is none of
    the common arguments and its value in [args] is not None. *)
Definition given (args : Cli.Namespace) (k : string) (v : Cli.pyval) : Prop :=
  (k ∉ Cli._COMMON_ARGUMENTS) /\ args !! k = Some v /\ Cli.is_not_none v = true.

(** [args] has every attribute the commands read. *)
Definition complete (args : Cli.Namespace) : Prop :=
  forall k, k ∈ Cli._COMMON_ARGUMENTS -> is_Some (args !! k).

(** A read-only public property of the state type was given a value. *)
Definition read_only_given (typ : list (string * Cli.attribute))
    (args : Cli.Namespace) : Prop :=
  exists k v, given args k v /\ Cli.public k = true /\ (k, Cli.Property false) ∈ typ.

(** An option that is no attribute of the state type was given a value. *)
Definition unknown_given (typ : list (string * Cli.attribute))
    (args : Cli.Namespace) : Prop :=
  exists k v, given args k v /\ (k ∉ typ.*1).

(** [k] is a writable public property of the state type and was given the
    value [v]. *)
Definition settable_given (typ : list (string * Cli.attribute))
    (args : Cli.Namespace) (k : string) (v : Cli.pyval) : Prop :=
  given args k v /\ Cli.public k = true /\ (k, Cli.Property true) ∈ typ.

(** A state type for the examples: two writable properties, the excluded
    property [name], a read-only property and two attributes that are no
    properties, in the order of [dir]. *)
Definition example_state_type : list (string * Cli.attribute) :=
  [ ("__init__", Cli.Other); ("fan_speed", Cli.Property true);
    ("mode", Cli.Property true); ("name", Cli.Property true);
    ("process_response", Cli.Other); ("tank_full", Cli.Property false) ]%string.

(** The namespace of [set --ip 192.0.2.1 --token t0 --key k0] followed by
    the given values for --fan_speed, --mode and --tank_full. *)
Definition example_args (fan_speed mode tank_full : Cli.pyval) : Cli.Namespace :=
  list_to_map
    [ ("account", Cli.PyStr ""); ("appid", Cli.PyStr "1017");
      ("appkey", Cli.PyStr "3742e9e5842d4ad59c2db887e12449f9");
      ("cloud", Cli.PyBool false); ("command", Cli.PyStr "set");
      ("credentials", Cli.PyBool false); ("id", Cli.PyNone);
      ("ip", Cli.PyStr "192.0.2.1"); ("key", Cli.PyStr "k0");
      ("loglevel", Cli.PyStr "WARNING"); ("password", Cli.PyStr "");
      ("token", Cli.PyStr "t0");
      ("fan_speed", fan_speed); ("mode", mode); ("tank_full", tank_full) ]%string.

(** ** Bytes and bit masks *)

Lemma land_255 (x : Z) : Z.land x 255 = x mod 256.
Proof. change 255 with (Z.ones 8). rewrite Z.land_ones by lia. reflexivity. Qed.

Lemma byte_land_255 (x : Z) : byte (Z.land x 255).
Proof. unfold byte. rewrite land_255. apply Z.mod_pos_bound. lia. Qed.

Lemma byte_iff_land (x : Z) : byte x <-> Z.land x 255 = x.
Proof.
  split.
  - intros Hx. rewrite land_255. apply Z.mod_small. exact Hx.
  - intros <-. apply byte_land_255.
Qed.

Lemma byte_land_l (b m : Z) : byte b -> byte (Z.land b m).
Proof.
  rewrite !byte_iff_land. intros Hb.
  rewrite <- Z.land_assoc, (Z.land_comm m), Z.land_assoc, Hb. reflexivity.
Qed.

Lemma byte_lor (a b : Z) : byte a -> byte b -> byte (Z.lor a b).
Proof.
  rewrite !byte_iff_land. intros Ha Hb.
  rewrite Z.land_lor_distr_l, Ha, Hb. reflexivity.
Qed.

Lemma sum8_byte (l : list Z) : 0 <= sum8 l < 256.
Proof. apply byte_land_255. Qed.

(** A value within [0, 2^k - 1] has no bit outside the mask [2^k - 1]. *)
Lemma fits_ones (k v : Z) : 0 <= k -> 0 <= v <= Z.ones k -> Z.land v (Z.ones k) = v.
Proof.
  intros Hk Hv. rewrite Z.land_ones by exact Hk.
  apply Z.mod_small. rewrite Z.ones_equiv in Hv. lia.
Qed.

Lemma masked_bits_read_back (b m v : Z) :
  Z.land v m = v -> Z.land (Z.lor (Z.land b (Z.lnot m)) v) m = v.
Proof.
  intros Hv. rewrite Z.land_lor_distr_l, <- Z.land_assoc.
  rewrite (Z.land_comm (Z.lnot m)), Z.land_lnot_diag, Z.land_0_r, Hv.
  apply Z.lor_0_l.
Qed.

Lemma sibling_bits_kept (b m v n : Z) :
  0 <= n -> Z.land v m = v -> Z.testbit m n = false ->
  Z.testbit (Z.lor (Z.land b (Z.lnot m)) v) n = Z.testbit b n.
Proof.
  intros Hn Hv Hm.
  rewrite Z.lor_spec, Z.land_spec, Z.lnot_spec by exact Hn.
  rewrite <- Hv, Z.land_spec, Hm.
  destruct (Z.testbit b n), (Z.testbit v n); reflexivity.
Qed.

(** ** Slices of an updated buffer *)

Lemma slice_insert_above (a b i : nat) (v : Z) (l : list Z) :
  (b <= i)%nat -> slice a b (<[i := v]> l) = slice a b l.
Proof.
  intros Hbi. unfold slice.
  destruct (decide (a <= i)%nat) as [Hai | Hai].
  - rewrite drop_insert_ge by exact Hai. apply take_insert_ge. lia.
  - replace (b - a)%nat with 0%nat by lia. reflexivity.
Qed.

Lemma slice_insert_last (a i : nat) (v : Z) (l : list Z) :
  (a <= i < length l)%nat ->
  slice a (S i) (<[i := v]> l) = slice a i l ++ [v].
Proof.
  intros [Hai Hil]. unfold slice.
  rewrite drop_insert_ge by exact Hai.
  replace (S i - a)%nat with (S (i - a)) by lia.
  rewrite (take_S_r _ _ v).
  - rewrite take_insert_ge by lia. reflexivity.
  - apply list_lookup_insert_eq. rewrite length_drop. lia.
Qed.

Lemma slice_snoc (a b : nat) (x : Z) (l : list Z) :
  (a <= b)%nat -> l !! b = Some x -> slice a (S b) l = slice a b l ++ [x].
Proof.
  intros Hab Hx. unfold slice.
  replace (S b - a)%nat with (S (b - a)) by lia.
  apply take_S_r. rewrite lookup_drop.
  replace (a + (b - a))%nat with b by lia. exact Hx.
Qed.

Lemma sum_app_one (l : list Z) (x : Z) : sum (l ++ [x]) = sum l + x.
Proof. unfold sum. rewrite fold_left_app. reflexivity. Qed.

(** A frame whose last byte is the two's complement of the sum of the bytes
    before it sums to 0 modulo 256. *)
Lemma sum_with_checksum (l : list Z) :
  sum (l ++ [(- sum l) mod 256]) mod 256 = 0.
Proof.
  rewrite sum_app_one, Z.add_mod_idemp_r by lia.
  replace (sum l + - sum l) with 0 by lia. reflexivity.
Qed.

(** ** finalize *)

Section FinalizeFacts.
Variable crc8 : list Z -> Z.
Hypothesis crc8_byte : forall l, 0 <= crc8 l < 256.

Lemma length_finalized (s : state) : length (finalized crc8 s) = length (data s).
Proof. unfold finalized. rewrite !length_insert. reflexivity. Qed.

(** On a buffer of at least 33 bytes no statement of [finalize] raises. *)
Lemma finalize_run (s : state) :
  (33 <= length (data s))%nat ->
  DehumidifierStatusCommand.finalize crc8 s =
    (Ok (finalized crc8 s), State (Z.land (_order s + 1) 0xFF) (finalized crc8 s)).
Proof.
  intros Hlen.
  unfold DehumidifierStatusCommand.finalize, finalized.
  unfold mbind, ST_bind, get_order, set_order, getslice, to_bytes, setitem.
  cbn [data _order].
  rewrite decide_True by lia.
  rewrite decide_True by apply byte_land_255.
  cbn [data _order].
  rewrite decide_True by (rewrite length_insert; lia).
  rewrite decide_True by apply crc8_byte.
  cbn [data _order].
  rewrite decide_True by (rewrite !length_insert; lia).
  rewrite decide_True by apply byte_land_255.
  reflexivity.
Qed.

Lemma finalize_run_set (s : state) :
  (33 <= length (data s))%nat ->
  DehumidifierSetCommand.finalize crc8 s =
    (Ok (finalized crc8 s), State (Z.land (_order s + 1) 0xFF) (finalized crc8 s)).
Proof. exact (finalize_run s). Qed.

Lemma finalized_lookup_30 (s : state) :
  (33 <= length (data s))%nat ->
  finalized crc8 s !! 30%nat = Some (Z.land (_order s + 1) 0xFF).
Proof.
  intros Hlen. unfold finalized.
  rewrite !list_lookup_insert_ne by lia.
  apply list_lookup_insert_eq. lia.
Qed.

Lemma finalized_lookup_31 (s : state) :
  (33 <= length (data s))%nat ->
  finalized crc8 s !! 31%nat =
    Some (crc8 (slice 10 30 (data s) ++ [Z.land (_order s + 1) 0xFF])).
Proof.
  intros Hlen. unfold finalized.
  rewrite list_lookup_insert_ne by lia.
  rewrite list_lookup_insert_eq by (rewrite length_insert; lia).
  rewrite slice_insert_last by lia. reflexivity.
Qed.

Lemma finalized_lookup_32 (s : state) :
  (33 <= length (data s))%nat ->
  finalized crc8 s !! 32%nat =
    Some (Z.land (Z.lnot (sum (slice 1 32 (finalized crc8 s))) + 1) 0xFF).
Proof.
  intros Hlen. unfold finalized at 1.
  rewrite list_lookup_insert_eq by (rewrite !length_insert; lia).
  unfold finalized. rewrite (slice_insert_above 1 32 32) by lia. reflexivity.
Qed.

Lemma finalized_lookup_other (s : state) (i : nat) :
  i <> 30%nat -> i <> 31%nat -> i <> 32%nat ->
  finalized crc8 s !! i = data s !! i.
Proof.
  intros H30 H31 H32. unfold finalized.
  rewrite !list_lookup_insert_ne by congruence. reflexivity.
Qed.

End FinalizeFacts.

Lemma checksum_twos_complement (x : Z) :
  Z.land (Z.lnot x + 1) 0xFF = (- x) mod 256.
Proof. rewrite Z.succ_lnot. apply land_255. Qed.

Lemma slice_finalized_10_31 (crc8 : list Z -> Z) (s : state) :
  (33 <= length (data s))%nat ->
  slice 10 31 (finalized crc8 s) =
    slice 10 30 (data s) ++ [Z.land (_order s + 1) 0xFF].
Proof.
  intros Hlen. unfold finalized.
  rewrite !(slice_insert_above 10 31) by lia.
  apply slice_insert_last. lia.
Qed.

(** ** The claims about finalize *)

(** C1, as amended: for the status query and the set command alike, finalize
    succeeds on a 33-byte command and the byte it writes at offset 31 is the
    CRC8 of the 21 bytes at offsets 10 to 30 of the finalized frame: the 20
    payload bytes at offsets 10 to 29 followed by the order-counter byte just
    written at offset 30.  Header, CRC and checksum bytes are no input. *)
Theorem C1_crc8_covers_payload_and_order
    (crc8 : list Z -> Z) (crc8_byte : forall l, 0 <= crc8 l < 256) (s : state) :
  (33 <= length (data s))%nat ->
  exists out s',
    DehumidifierStatusCommand.finalize crc8 s = (Ok out, s') /\
    DehumidifierSetCommand.finalize crc8 s = (Ok out, s') /\
    out !! 31%nat = Some (crc8 (slice 10 31 out)) /\
    slice 10 31 out = slice 10 30 (data s) ++ [Z.land (_order s + 1) 0xFF].
Proof.
  intros Hlen. eexists _, _.
  split; [apply (finalize_run crc8 crc8_byte s Hlen) |].
  split; [apply (finalize_run_set crc8 crc8_byte s Hlen) |].
  split.
  - rewrite slice_finalized_10_31 by exact Hlen.
    apply finalized_lookup_31. exact Hlen.
  - apply slice_finalized_10_31. exact Hlen.
Qed.

(** C1 on a fresh status query with the counter at 0, the byte sum standing
    in for crc8. *)
Lemma C1_crc8_covers_payload_and_order_witness :
  (33 <= length (data (State 0 DehumidifierStatusCommand.__init__)))%nat /\
  exists out s',
    DehumidifierStatusCommand.finalize sum8
      (State 0 DehumidifierStatusCommand.__init__) = (Ok out, s') /\
    out !! 31%nat = Some (sum8 (slice 10 31 out)).
Proof.
  assert (Hlen : (33 <= length (data (State 0 DehumidifierStatusCommand.__init__)))%nat)
    by (simpl; lia).
  split; [exact Hlen |].
  destruct (C1_crc8_covers_payload_and_order sum8 sum8_byte _ Hlen)
    as (out & s' & Hstatus & _ & Hcrc & _).
  exists out, s'. split; [exact Hstatus | exact Hcrc].
Defined.

(** C1, counterexample to the claim as stated: with the byte sum standing in
    for crc8, finalizing the same status query from counter values 0 and 1
    gives frames with identical payload bytes (offsets 10 to 29) and
    different CRC bytes, neither of them the value 0xC5 that the payload
    bytes alone give: the order byte is an input to the CRC8. *)
Lemma C1_counterexample :
  exists out0 s0 out1 s1,
    DehumidifierStatusCommand.finalize sum8
      (State 0 DehumidifierStatusCommand.__init__) = (Ok out0, s0) /\
    DehumidifierStatusCommand.finalize sum8
      (State 1 DehumidifierStatusCommand.__init__) = (Ok out1, s1) /\
    slice 10 30 out0 = slice 10 30 out1 /\
    out0 !! 31%nat = Some 0xC6 /\
    out1 !! 31%nat = Some 0xC7 /\
    sum8 (slice 10 30 DehumidifierStatusCommand.__init__) = 0xC5.
Proof. eexists _, _, _, _. repeat split; vm_compute; reflexivity. Qed.

(** C6: finalize, on either command class, writes at offset 32 the two's
    complement modulo 256 of the sum of the frame's bytes at offsets 1 to 31
    (order and CRC bytes included, as just written); bytes 1 to 32 of the
    frame then sum to 0 modulo 256. *)
Theorem C6_checksum_twos_complement
    (crc8 : list Z -> Z) (crc8_byte : forall l, 0 <= crc8 l < 256) (s : state) :
  (33 <= length (data s))%nat ->
  exists out s',
    DehumidifierStatusCommand.finalize crc8 s = (Ok out, s') /\
    DehumidifierSetCommand.finalize crc8 s = (Ok out, s') /\
    out !! 32%nat = Some ((- sum (slice 1 32 out)) mod 256) /\
    sum (slice 1 33 out) mod 256 = 0.
Proof.
  intros Hlen. eexists _, _.
  split; [apply (finalize_run crc8 crc8_byte s Hlen) |].
  split; [apply (finalize_run_set crc8 crc8_byte s Hlen) |].
  assert (H32 : finalized crc8 s !! 32%nat =
                Some ((- sum (slice 1 32 (finalized crc8 s))) mod 256)).
  { rewrite <- checksum_twos_complement.
    apply finalized_lookup_32. exact Hlen. }
  split; [exact H32 |].
  rewrite (slice_snoc 1 32 _ _ ltac:(lia) H32).
  apply sum_with_checksum.
Qed.

(** C6 on a fresh set command with the counter at 0. *)
Lemma C6_checksum_twos_complement_witness :
  (33 <= length (data (State 0 DehumidifierSetCommand.__init__)))%nat /\
  exists out s',
    DehumidifierSetCommand.finalize sum8
      (State 0 DehumidifierSetCommand.__init__) = (Ok out, s') /\
    out !! 32%nat = Some ((- sum (slice 1 32 out)) mod 256).
Proof.
  assert (Hlen : (33 <= length (data (State 0 DehumidifierSetCommand.__init__)))%nat)
    by (simpl; lia).
  split; [exact Hlen |].
  destruct (C6_checksum_twos_complement sum8 sum8_byte _ Hlen)
    as (out & s' & _ & Hset & Hsum & _).
  exists out, s'. split; [exact Hset | exact Hsum].
Defined.

(** C7: every finalize, of a status query or of a set command, replaces the
    one module-level counter [_order] by its successor modulo 256 and writes
    the new value at offset 30; the value written lies in [0, 255] and is 0
    when the counter stood at 255.  The counter belongs to no command: a
    finalize of any other command object that follows continues from the
    value this one left. *)
Theorem C7_order_counter_wraps
    (crc8 : list Z -> Z) (crc8_byte : forall l, 0 <= crc8 l < 256) (s : state) :
  (33 <= length (data s))%nat ->
  exists out s',
    DehumidifierStatusCommand.finalize crc8 s = (Ok out, s') /\
    DehumidifierSetCommand.finalize crc8 s = (Ok out, s') /\
    _order s' = (_order s + 1) mod 256 /\
    out !! 30%nat = Some (_order s') /\
    0 <= _order s' <= 255 /\
    (_order s = 255 -> _order s' = 0) /\
    forall other : list Z, (33 <= length other)%nat ->
      exists out2 s2,
        DehumidifierStatusCommand.finalize crc8 (State (_order s') other) = (Ok out2, s2) /\
        DehumidifierSetCommand.finalize crc8 (State (_order s') other) = (Ok out2, s2) /\
        _order s2 = (_order s + 2) mod 256 /\
        out2 !! 30%nat = Some (_order s2).
Proof.
  intros Hlen. eexists _, _.
  split; [apply (finalize_run crc8 crc8_byte s Hlen) |].
  split; [apply (finalize_run_set crc8 crc8_byte s Hlen) |].
  cbn [_order].
  split; [apply land_255 |].
  split; [apply finalized_lookup_30; exact Hlen |].
  split.
  { pose proof (byte_land_255 (_order s + 1)) as Hb. unfold byte in Hb. lia. }
  split.
  { intros ->. reflexivity. }
  intros other Hother.
  set (s1 := State (Z.land (_order s + 1) 0xFF) other).
  assert (Hs1 : (33 <= length (data s1))%nat) by exact Hother.
  eexists _, _.
  split; [apply (finalize_run crc8 crc8_byte s1 Hs1) |].
  split; [apply (finalize_run_set crc8 crc8_byte s1 Hs1) |].
  split.
  - subst s1. cbn [_order].
    rewrite !land_255, Z.add_mod_idemp_l by lia. f_equal. lia.
  - apply finalized_lookup_30. exact Hs1.
Qed.

(** C7 on a fresh status query with the counter at 255: the order byte
    emitted is 0. *)
Lemma C7_order_counter_wraps_witness :
  (33 <= length (data (State 255 DehumidifierStatusCommand.__init__)))%nat /\
  exists out s',
    DehumidifierStatusCommand.finalize sum8
      (State 255 DehumidifierStatusCommand.__init__) = (Ok out, s') /\
    _order s' = 0 /\ out !! 30%nat = Some 0.
Proof.
  assert (Hlen : (33 <= length (data (State 255 DehumidifierStatusCommand.__init__)))%nat)
    by (simpl; lia).
  split; [exact Hlen |].
  destruct (C7_order_counter_wraps sum8 sum8_byte _ Hlen)
    as (out & s' & Hstatus & _ & _ & H30 & _ & Hwrap & _).
  exists out, s'. split; [exact Hstatus |].
  rewrite H30, (Hwrap eq_refl). split; reflexivity.
Defined.

(** C10: finalize, on either command class, leaves the buffer at its length
    and changes no byte other than those at offsets 30, 31 and 32; bytes 0 to
    29, the payload fields among them, keep their values. *)
Theorem C10_finalize_frame
    (crc8 : list Z -> Z) (crc8_byte : forall l, 0 <= crc8 l < 256) (s : state) :
  (33 <= length (data s))%nat ->
  exists out s',
    DehumidifierStatusCommand.finalize crc8 s = (Ok out, s') /\
    DehumidifierSetCommand.finalize crc8 s = (Ok out, s') /\
    data s' = out /\
    length out = length (data s) /\
    forall i : nat,
      i <> 30%nat -> i <> 31%nat -> i <> 32%nat -> out !! i = data s !! i.
Proof.
  intros Hlen. eexists _, _.
  split; [apply (finalize_run crc8 crc8_byte s Hlen) |].
  split; [apply (finalize_run_set crc8 crc8_byte s Hlen) |].
  cbn [data].
  split; [reflexivity |].
  split; [apply length_finalized |].
  intros i. apply finalized_lookup_other.
Qed.

(** C10 on a fresh set command: the first 30 bytes returned are those of the
    constructor. *)
Lemma C10_finalize_frame_witness :
  (33 <= length (data (State 7 DehumidifierSetCommand.__init__)))%nat /\
  exists out s',
    DehumidifierSetCommand.finalize sum8
      (State 7 DehumidifierSetCommand.__init__) = (Ok out, s') /\
    take 30 out = take 30 DehumidifierSetCommand.__init__.
Proof.
  assert (Hlen : (33 <= length (data (State 7 DehumidifierSetCommand.__init__)))%nat)
    by (simpl; lia).
  split; [exact Hlen |].
  destruct (C10_finalize_frame sum8 sum8_byte _ Hlen)
    as (out & s' & _ & Hset & _ & Hl & Hframe).
  exists out, s'. split; [exact Hset |].
  apply list_eq. intros i.
  destruct (decide (i < 30)%nat) as [Hi | Hi].
  - rewrite !lookup_take_lt by exact Hi. apply Hframe; lia.
  - rewrite !lookup_take_ge by lia. reflexivity.
Defined.

(** ** Setters of the set command *)

Lemma well_formed_lookup (s : state) (i : nat) :
  well_formed s -> (i < 33)%nat -> exists b, data s !! i = Some b /\ byte b.
Proof.
  intros [Hlen Hbytes] Hi.
  destruct (lookup_lt_is_Some_2 (data s) i) as [b Hb]; [lia |].
  exists b. split; [exact Hb |].
  exact (Forall_lookup_1 _ _ _ _ Hbytes Hb).
Qed.

Lemma assign_field_run (i : nat) (mask v : Z) (s : state) (b : Z) :
  data s !! i = Some b -> byte b -> byte v ->
  assign_field i mask v s =
    (Ok tt, State (_order s) (<[i := Z.lor (Z.land b (Z.lnot mask)) v]> (data s))).
Proof.
  intros Hb Hbyte Hv.
  pose proof (lookup_lt_Some _ _ _ Hb) as Hi.
  unfold assign_field, mbind, ST_bind, getitem, setitem.
  rewrite Hb.
  rewrite decide_True by exact Hi.
  rewrite decide_True by (apply byte_land_l; exact Hbyte).
  cbn [data _order].
  rewrite list_lookup_insert_eq by exact Hi.
  cbn [data _order].
  rewrite decide_True by (rewrite length_insert; exact Hi).
  rewrite decide_True by (apply byte_lor; [apply byte_land_l; exact Hbyte | exact Hv]).
  rewrite list_insert_insert_eq. reflexivity.
Qed.

Lemma assign_field_frame (i : nat) (mask v : Z) (s : state) (b : Z) :
  data s !! i = Some b -> byte b -> byte v -> Z.land v mask = v ->
  only_masked_bits_change i mask (assign_field i mask v) s.
Proof.
  intros Hb Hbyte Hv Hfits.
  pose proof (lookup_lt_Some _ _ _ Hb) as Hi.
  eexists. split; [apply (assign_field_run i mask v s b Hb Hbyte Hv) |].
  cbn [data _order].
  split; [reflexivity |].
  split; [apply length_insert |].
  split.
  - intros j Hj. apply list_lookup_insert_ne. congruence.
  - exists b, (Z.lor (Z.land b (Z.lnot mask)) v).
    split; [exact Hb |].
    split; [apply list_lookup_insert_eq; exact Hi |].
    intros n Hn Hmask. apply sibling_bits_kept; assumption.
Qed.

Lemma assign_then_finalize (crc8 : list Z -> Z) (i : nat) (mask v : Z) (s : state) :
  (forall l, 0 <= crc8 l < 256) ->
  well_formed s -> (i < 30)%nat -> byte v -> Z.land v mask = v ->
  exists wire s' b,
    (assign_field i mask v;; DehumidifierSetCommand.finalize crc8) s = (Ok wire, s') /\
    wire !! i = Some b /\ Z.land b mask = v.
Proof.
  intros Hcrc Hwf Hi Hv Hfits.
  destruct (well_formed_lookup s i Hwf) as (b & Hb & Hbyte); [lia |].
  destruct Hwf as [Hlen _].
  eexists _, _, (Z.lor (Z.land b (Z.lnot mask)) v).
  unfold mbind at 1, ST_bind at 1.
  rewrite (assign_field_run i mask v s b Hb Hbyte Hv).
  rewrite finalize_run_set;
    [| exact Hcrc | cbn [data]; rewrite length_insert; lia].
  split; [reflexivity |].
  split.
  - rewrite finalized_lookup_other by lia.
    cbn [data]. apply list_lookup_insert_eq. lia.
  - apply masked_bits_read_back. exact Hfits.
Qed.

Lemma flag_fits (mask : Z) (v : bool) :
  Z.land (if v then mask else 0) mask = (if v then mask else 0).
Proof. destruct v; [apply Z.land_diag | apply Z.land_0_l]. Qed.

Lemma flag_byte (mask : Z) (v : bool) : byte mask -> byte (if v then mask else 0).
Proof. intros Hm. destruct v; [exact Hm | unfold byte; lia]. Qed.

Lemma fits_15 (v : Z) : 0 <= v <= 15 -> byte v /\ Z.land v 0x0F = v.
Proof.
  intros Hv. split; [unfold byte; lia |].
  apply (fits_ones 4); [lia | exact Hv].
Qed.

Lemma fits_127 (v : Z) : 0 <= v <= 127 -> byte v /\ Z.land v 0x7F = v.
Proof.
  intros Hv. split; [unfold byte; lia |].
  apply (fits_ones 7); [lia | exact Hv].
Qed.

(** C5: on a well-formed set command, assigning a valid value to isOn, mode,
    fanSpeed, targetHumidity or ionMode (a boolean for the two flags, 0 to 15
    for the mode, 0 to 127 for fan speed and target humidity), finalizing,
    and reading the field from the returned wire bytes gives the value
    assigned. *)
Theorem C5_set_finalize_read_back
    (crc8 : list Z -> Z) (crc8_byte : forall l, 0 <= crc8 l < 256) (s : state) :
  well_formed s ->
  (forall v : bool,
      round_trips (DehumidifierSetCommand.finalize crc8)
        (DehumidifierSetCommand.set_is_on v) DehumidifierSetCommand.is_on v s) /\
  (forall v : Z, 0 <= v <= 15 ->
      round_trips (DehumidifierSetCommand.finalize crc8)
        (DehumidifierSetCommand.set_mode v) DehumidifierSetCommand.mode v s) /\
  (forall v : Z, 0 <= v <= 127 ->
      round_trips (DehumidifierSetCommand.finalize crc8)
        (DehumidifierSetCommand.set_fan_speed v) DehumidifierSetCommand.fan_speed v s) /\
  (forall v : Z, 0 <= v <= 127 ->
      round_trips (DehumidifierSetCommand.finalize crc8)
        (DehumidifierSetCommand.set_target_humidity v)
        DehumidifierSetCommand.target_humidity v s) /\
  (forall v : bool,
      round_trips (DehumidifierSetCommand.finalize crc8)
        (DehumidifierSetCommand.set_ion_mode v) DehumidifierSetCommand.ion_mode v s).
Proof.
  intros Hwf. repeat split.
  - intros v.
    destruct (assign_then_finalize crc8 11 0x01 (if v then 0x01 else 0) s)
      as (wire & s' & b & Hrun & Hb & Hread);
      [exact crc8_byte | exact Hwf | lia | apply flag_byte; unfold byte; lia
      | apply flag_fits |].
    exists wire, s'. split; [exact Hrun |].
    unfold read_back, DehumidifierSetCommand.is_on, mbind, ST_bind, getitem.
    cbn [data]. rewrite Hb. cbn. rewrite Hread. destruct v; reflexivity.
  - intros v Hv. destruct (fits_15 v Hv) as [Hbyte Hfits].
    destruct (assign_then_finalize crc8 12 0x0F v s)
      as (wire & s' & b & Hrun & Hb & Hread); try assumption; [lia |].
    exists wire, s'. split; [exact Hrun |].
    unfold read_back, DehumidifierSetCommand.mode, mbind, ST_bind, getitem.
    cbn [data]. rewrite Hb. cbn. rewrite Hread. reflexivity.
  - intros v Hv. destruct (fits_127 v Hv) as [Hbyte Hfits].
    destruct (assign_then_finalize crc8 13 0x7F v s)
      as (wire & s' & b & Hrun & Hb & Hread); try assumption; [lia |].
    exists wire, s'. split; [exact Hrun |].
    unfold read_back, DehumidifierSetCommand.fan_speed, mbind, ST_bind, getitem.
    cbn [data]. rewrite Hb. cbn. rewrite Hread. reflexivity.
  - intros v Hv. destruct (fits_127 v Hv) as [Hbyte Hfits].
    destruct (assign_then_finalize crc8 17 0x7F v s)
      as (wire & s' & b & Hrun & Hb & Hread); try assumption; [lia |].
    exists wire, s'. split; [exact Hrun |].
    unfold read_back, DehumidifierSetCommand.target_humidity, mbind, ST_bind, getitem.
    cbn [data]. rewrite Hb. cbn. rewrite Hread. reflexivity.
  - intros v.
    destruct (assign_then_finalize crc8 19 0x60 (if v then 0x60 else 0) s)
      as (wire & s' & b & Hrun & Hb & Hread);
      [exact crc8_byte | exact Hwf | lia | apply flag_byte; unfold byte; lia
      | apply flag_fits |].
    exists wire, s'. split; [exact Hrun |].
    unfold read_back, DehumidifierSetCommand.ion_mode, mbind, ST_bind, getitem.
    cbn [data]. rewrite Hb. cbn. rewrite Hread. destruct v; reflexivity.
Qed.

Lemma well_formed_set_init (o : Z) :
  well_formed (State o DehumidifierSetCommand.__init__).
Proof.
  split; [reflexivity |].
  cbn. unfold byte.
  repeat (constructor; [lia |]). constructor.
Qed.

(** C5 for a target humidity of 55 on a fresh set command. *)
Lemma C5_set_finalize_read_back_witness :
  well_formed (State 41 DehumidifierSetCommand.__init__) /\
  round_trips (DehumidifierSetCommand.finalize sum8)
    (DehumidifierSetCommand.set_target_humidity 55)
    DehumidifierSetCommand.target_humidity 55
    (State 41 DehumidifierSetCommand.__init__).
Proof.
  split; [apply well_formed_set_init |].
  destruct (C5_set_finalize_read_back sum8 sum8_byte _ (well_formed_set_init 41))
    as (_ & _ & _ & Hhumidity & _).
  apply Hhumidity. lia.
Defined.

(** C8, as amended: on a well-formed set command, a setter given a value that
    fits its field (a boolean for isOn and ionMode, 0 to 15 for mode, 0 to 127
    for fanSpeed and targetHumidity) succeeds and changes only bits of the
    field's mask (0x01, 0x60, 0x0F, 0x7F, 0x7F) in the field's byte (11, 19,
    12, 13, 17): every bit outside the mask, every other byte, the buffer
    length and the order counter are unchanged. *)
Theorem C8_setters_touch_only_their_mask (s : state) :
  well_formed s ->
  (forall v : bool,
      only_masked_bits_change 11 0x01 (DehumidifierSetCommand.set_is_on v) s) /\
  (forall v : bool,
      only_masked_bits_change 19 0x60 (DehumidifierSetCommand.set_ion_mode v) s) /\
  (forall v : Z, 0 <= v <= 127 ->
      only_masked_bits_change 17 0x7F (DehumidifierSetCommand.set_target_humidity v) s) /\
  (forall v : Z, 0 <= v <= 15 ->
      only_masked_bits_change 12 0x0F (DehumidifierSetCommand.set_mode v) s) /\
  (forall v : Z, 0 <= v <= 127 ->
      only_masked_bits_change 13 0x7F (DehumidifierSetCommand.set_fan_speed v) s).
Proof.
  intros Hwf. repeat split.
  - intros v. destruct (well_formed_lookup s 11 Hwf) as (b & Hb & Hbyte); [lia |].
    apply (assign_field_frame 11 0x01 _ s b Hb Hbyte);
      [apply flag_byte; unfold byte; lia | apply flag_fits].
  - intros v. destruct (well_formed_lookup s 19 Hwf) as (b & Hb & Hbyte); [lia |].
    apply (assign_field_frame 19 0x60 _ s b Hb Hbyte);
      [apply flag_byte; unfold byte; lia | apply flag_fits].
  - intros v Hv. destruct (well_formed_lookup s 17 Hwf) as (b & Hb & Hbyte); [lia |].
    destruct (fits_127 v Hv) as [Hvbyte Hfits].
    exact (assign_field_frame 17 0x7F v s b Hb Hbyte Hvbyte Hfits).
  - intros v Hv. destruct (well_formed_lookup s 12 Hwf) as (b & Hb & Hbyte); [lia |].
    destruct (fits_15 v Hv) as [Hvbyte Hfits].
    exact (assign_field_frame 12 0x0F v s b Hb Hbyte Hvbyte Hfits).
  - intros v Hv. destruct (well_formed_lookup s 13 Hwf) as (b & Hb & Hbyte); [lia |].
    destruct (fits_127 v Hv) as [Hvbyte Hfits].
    exact (assign_field_frame 13 0x7F v s b Hb Hbyte Hvbyte Hfits).
Qed.

(** C8 for mode 3 on a fresh set command. *)
Lemma C8_setters_touch_only_their_mask_witness :
  well_formed (State 0 DehumidifierSetCommand.__init__) /\
  only_masked_bits_change 12 0x0F (DehumidifierSetCommand.set_mode 3)
    (State 0 DehumidifierSetCommand.__init__).
Proof.
  split; [apply well_formed_set_init |].
  destruct (C8_setters_touch_only_their_mask _ (well_formed_set_init 0))
    as (_ & _ & _ & Hmode & _).
  apply Hmode. lia.
Defined.

(** C8, counterexample to the claim as stated: on a fresh set command, whose
    byte 12 is 0x01, assigning mode 16 succeeds and leaves 0x10 in byte 12.
    Bit 4, outside the mode mask 0x0F, went from 0 to 1. *)
Lemma C8_counterexample :
  DehumidifierSetCommand.set_mode 16 (State 0 DehumidifierSetCommand.__init__) =
    (Ok tt, State 0 (<[12%nat := 0x10]> DehumidifierSetCommand.__init__)) /\
  DehumidifierSetCommand.__init__ !! 12%nat = Some 0x01 /\
  ~ only_masked_bits_change 12 0x0F (DehumidifierSetCommand.set_mode 16)
      (State 0 DehumidifierSetCommand.__init__).
Proof.
  assert (Hrun :
    DehumidifierSetCommand.set_mode 16 (State 0 DehumidifierSetCommand.__init__) =
      (Ok tt, State 0 (<[12%nat := 0x10]> DehumidifierSetCommand.__init__)))
    by (vm_compute; reflexivity).
  split; [exact Hrun |]. split; [reflexivity |].
  intros (s' & Hs' & _ & _ & _ & b & b' & Hb & Hb' & Hbits).
  rewrite Hrun in Hs'. injection Hs' as <-.
  cbn in Hb, Hb'. injection Hb as <-. injection Hb' as <-.
  specialize (Hbits 4 ltac:(lia) eq_refl). discriminate Hbits.
Qed.

(** ** Response decoding *)

(** C3, the decoders at the sentinel: in a 22-byte response whose on-timer
    and off-timer bytes (offsets 4 and 5) are 0x7F, both timers decode as not
    set, yet the on-timer minutes are 3, the low two bits of the sentinel, and
    the off-timer hour is 31 with minutes that follow the minute byte
    (offset 6): 15 when it is 0xFF, 3 when it is 0x00. *)
Theorem C3_timer_sentinel_leaks_into_hour_and_minutes :
  exists r r',
    DehumidifierResponse.__init__
      ([0; 0; 0; 0; 0x7F; 0x7F; 0xFF] ++ replicate 15 0) = Ok r /\
    DehumidifierResponse.__init__
      ([0; 0; 0; 0; 0x7F; 0x7F; 0x00] ++ replicate 15 0) = Ok r' /\
    DehumidifierResponse.on_timer r =
      DehumidifierResponse.Timer false false 0 3 0x7F 0xFF /\
    DehumidifierResponse.off_timer r =
      DehumidifierResponse.Timer false false 31 15 0x7F 0xFF /\
    DehumidifierResponse.off_timer r' =
      DehumidifierResponse.Timer false false 31 3 0x7F 0x00.
Proof. eexists _, _. repeat split. Qed.

Ltac read_index data k :=
  let b := fresh "b" in
  let Hb := fresh "Hb" in
  destruct (lookup_lt_is_Some_2 data k) as [b Hb]; [lia |].

(** C9, as amended: constructing a response from a buffer shorter than 22
    bytes (the highest offset read is 0x15) raises IndexError and yields no
    object, hence no partially decoded state; every buffer of 22 bytes or
    more decodes, and what it decodes to does not depend on its first byte:
    the constructor reads offsets 2, 3, 4, 5, 6, 7, 9, 10, 16 and 21 and
    checks no header. *)
Theorem C9_response_needs_22_bytes (data : list Z) :
  ((length data < 22)%nat ->
     DehumidifierResponse.__init__ data = Raise IndexError) /\
  ((22 <= length data)%nat ->
     exists r, DehumidifierResponse.__init__ data = Ok r /\
       forall h, DehumidifierResponse.__init__ (<[0%nat := h]> data) = Ok r).
Proof.
  split; intros Hlen.
  - unfold DehumidifierResponse.__init__, index, mbind, outcome_bind.
    destruct (data !! 21%nat) as [b21 |] eqn:H21.
    + apply lookup_lt_Some in H21. lia.
    + repeat (match goal with
              | |- context [match ?l !! ?k with _ => _ end] => destruct (l !! k)
              end; try reflexivity).
  - read_index data 2%nat. read_index data 3%nat. read_index data 4%nat.
    read_index data 5%nat. read_index data 6%nat. read_index data 7%nat.
    read_index data 9%nat. read_index data 10%nat. read_index data 16%nat.
    read_index data 21%nat.
    eexists. split.
    + unfold DehumidifierResponse.__init__, index.
      rewrite Hb, Hb0, Hb1, Hb2, Hb3, Hb4, Hb5, Hb6, Hb7, Hb8.
      reflexivity.
    + intros h. unfold DehumidifierResponse.__init__, index.
      rewrite !list_lookup_insert_ne by lia.
      rewrite Hb, Hb0, Hb1, Hb2, Hb3, Hb4, Hb5, Hb6, Hb7, Hb8.
      reflexivity.
Qed.

(** C9 on a buffer of 21 bytes. *)
Lemma C9_response_needs_22_bytes_witness :
  (length (0xAA :: replicate 20 0) < 22)%nat /\
  DehumidifierResponse.__init__ (0xAA :: replicate 20 0) = Raise IndexError.
Proof.
  assert (Hlen : (length (0xAA :: replicate 20 0) < 22)%nat) by (simpl; lia).
  split; [exact Hlen |].
  exact (proj1 (C9_response_needs_22_bytes (0xAA :: replicate 20 0)) Hlen).
Defined.

(** C9, counterexample to the claim as stated: two 22-byte buffers that
    differ in their first byte only, 0xAA and 0x00, both decode, and to the
    same state; whichever header value the protocol expects, one of them
    does not carry it. *)
Lemma C9_counterexample :
  exists r,
    DehumidifierResponse.__init__ (0xAA :: replicate 21 0x32) = Ok r /\
    DehumidifierResponse.__init__ (0x00 :: replicate 21 0x32) = Ok r /\
    DehumidifierResponse._target_humidity r = 50.
Proof. eexists. repeat split. Qed.

(** ** The cloud request state machine *)

Section CloudFacts.
Import MideaCloud.
Variable cloud : list string -> string -> response.


Lemma post_run (endpoint : string) (c : client) :
  post cloud endpoint c =
    (Ok (cloud (request_history c) endpoint),
     Client (_session c) (_appliance_list c) (request_history c ++ [endpoint])).
Proof. reflexivity. Qed.

(** One request of a login sequence that the cloud answers with success. *)
Lemma fetch_success (endpoint : string) (c : client) (e : envelope) :
  cloud (request_history c) endpoint = Reply e -> errorCode e = 0 ->
  fetch cloud endpoint c =
    (Ok (default ""%string (result e)),
     Client (_session c) (_appliance_list c) (request_history c ++ [endpoint])).
Proof.
  intros Hreply Hcode. unfold fetch, mbind, ST_bind.
  rewrite post_run, Hreply, Hcode. reflexivity.
Qed.

(** A request whose first answer is final: success or an error code that
    is not answered by a restart. *)
Lemma request_unfold (budget : nat) (endpoint : string) (c : client) :
  request cloud budget endpoint c =
    match cloud (request_history c) endpoint with
    | Failure cause =>
        (Raise (request_error cause endpoint),
         Client (_session c) (_appliance_list c) (request_history c ++ [endpoint]))
    | Reply e =>
        let c' := Client (_session c) (_appliance_list c)
                    (request_history c ++ [endpoint]) in
        match classify (errorCode e) with
        | Success => (Ok (result e), c')
        | SessionInvalid =>
            match budget with
            | O => (Raise (too_many_retries endpoint), c')
            | S budget' =>
                (set_session None;; login cloud;; request cloud budget' endpoint) c'
            end
        | FullRestart =>
            match budget with
            | O => (Raise (too_many_retries endpoint), c')
            | S budget' =>
                (set_session None;; login cloud;; list_appliances cloud;;
                 request cloud budget' endpoint) c'
            end
        | Ignored =>
            match budget with
            | O => (Raise (too_many_retries endpoint), c')
            | S budget' => request cloud budget' endpoint c'
            end
        | AuthenticationFailure | RetryLater | Other => (Raise (raise_for e), c')
        end
    end.
Proof.
  destruct budget; cbn [request]; unfold mbind at 1, ST_bind at 1;
    rewrite post_run; destruct (cloud (request_history c) endpoint) as [e | cause];
    try reflexivity; destruct (classify (errorCode e)); reflexivity.
Qed.



End CloudFacts.

Local Open Scope string_scope.
Local Open Scope list_scope.





(** C4: when the cloud answers the request with errorCode 3106, then answers
    the loginId fetch, the login and the repeated request with success, and
    the budget allows one restart, api_request posts exactly these four
    requests in this order (the request, user/login/id/get, user/login, the
    request again) and returns the result of the repeated request. *)
Theorem C4_session_restart_then_retry
    (cloud : list string -> string -> MideaCloud.response) (max_retries : nat)
    (endpoint : string) (wanted : bool) (c c1 : MideaCloud.client)
    (e e_id e_login e_retry : MideaCloud.envelope) :
  (1 <= max_retries)%nat ->
  MideaCloud.authenticate cloud wanted c = (Ok tt, c1) ->
  cloud (MideaCloud.request_history c1) endpoint = MideaCloud.Reply e ->
  MideaCloud.errorCode e = 3106 ->
  cloud (MideaCloud.request_history c1 ++ [endpoint]) "user/login/id/get" =
    MideaCloud.Reply e_id ->
  MideaCloud.errorCode e_id = 0 ->
  cloud (MideaCloud.request_history c1 ++ [endpoint; "user/login/id/get"])
      "user/login" = MideaCloud.Reply e_login ->
  MideaCloud.errorCode e_login = 0 ->
  cloud (MideaCloud.request_history c1 ++
           [endpoint; "user/login/id/get"; "user/login"]) endpoint =
    MideaCloud.Reply e_retry ->
  MideaCloud.errorCode e_retry = 0 ->
  exists c',
    MideaCloud.api_request cloud max_retries endpoint wanted c =
      (Ok (MideaCloud.result e_retry), c') /\
    MideaCloud.request_history c' =
      MideaCloud.request_history c1 ++
        [endpoint; "user/login/id/get"; "user/login"; endpoint].
Proof.
  intros Hbudget Hauth Hreply Hcode Hid Hid0 Hlogin Hlogin0 Hretry Hretry0.
  destruct max_retries as [| budget]; [lia |].
  unfold MideaCloud.api_request, mbind at 1, ST_bind at 1.
  rewrite Hauth, request_unfold, Hreply, Hcode. cbn zeta iota.
  change (MideaCloud.classify 3106) with MideaCloud.SessionInvalid. cbn iota.
  unfold mbind at 1, ST_bind at 1, MideaCloud.set_session.
  cbn [MideaCloud._session MideaCloud._appliance_list MideaCloud.request_history].
  unfold mbind at 1, ST_bind at 1, MideaCloud.login.
  unfold mbind at 1, ST_bind at 1.
  rewrite (fetch_success cloud _ _ e_id) by (cbn; assumption).
  cbn [MideaCloud._session MideaCloud._appliance_list MideaCloud.request_history].
  unfold mbind at 1, ST_bind at 1.
  rewrite (fetch_success cloud _ _ e_login)
    by (cbn; rewrite <- ?app_assoc; assumption).
  cbn [MideaCloud._session MideaCloud._appliance_list MideaCloud.request_history].
  unfold MideaCloud.set_session.
  cbn [MideaCloud._session MideaCloud._appliance_list MideaCloud.request_history].
  rewrite request_unfold.
  cbn [MideaCloud._session MideaCloud._appliance_list MideaCloud.request_history].
  rewrite <- !app_assoc. cbn [app].
  rewrite Hretry, Hretry0. cbn.
  eexists. split; [reflexivity |]. cbn.
  rewrite <- ?app_assoc. reflexivity.
Qed.

(** C4 on [test_session_restart], with a budget of three restarts. *)
Lemma C4_session_restart_then_retry_witness :
  exists c',
    MideaCloud.api_request session_restart_cloud 3 "dummy" false cloud_client =
      (Ok (Some "response text"), c') /\
    MideaCloud.request_history c' =
      ["dummy"; "user/login/id/get"; "user/login"; "dummy"].
Proof.
  apply (C4_session_restart_then_retry session_restart_cloud 3 "dummy" false
           cloud_client cloud_client
           (MideaCloud.Envelope 3106 "session restart" None)
           (MideaCloud.Envelope 0 "" (Some "test-login"))
           (MideaCloud.Envelope 0 "" (Some "session-1"))
           (MideaCloud.Envelope 0 "" (Some "response text")));
    first [reflexivity | lia].
Defined.

Local Close Scope string_scope.

(** * Further properties of the code *)

(** ** finalize on a short buffer, and the checksum as an error check *)

Lemma byte_finalized (crc8 : list Z -> Z) (s : state) :
  (forall l, 0 <= crc8 l < 256) ->
  Forall byte (data s) -> Forall byte (finalized crc8 s).
Proof.
  intros Hcrc Hbytes. unfold finalized.
  repeat apply Forall_insert; try exact Hbytes.
  - apply byte_land_255.
  - apply Hcrc.
  - apply byte_land_255.
Qed.

Lemma fold_left_add_acc (l : list Z) (acc : Z) :
  fold_left Z.add l acc = acc + fold_left Z.add l 0.
Proof.
  revert acc. induction l as [| y l IH]; intros acc; cbn [fold_left].
  - lia.
  - rewrite (IH (acc + y)), (IH (0 + y)). lia.
Qed.

Lemma sum_cons (x : Z) (l : list Z) : sum (x :: l) = x + sum l.
Proof. unfold sum. cbn [fold_left]. rewrite fold_left_add_acc. lia. Qed.

Lemma sum_insert (l : list Z) (i : nat) (b b' : Z) :
  l !! i = Some b -> sum (<[i := b']> l) = sum l - b + b'.
Proof.
  revert i. induction l as [| x l IH]; intros i Hb; [discriminate |].
  destruct i as [| i]; cbn in Hb.
  - injection Hb as ->.
    change (<[0%nat := b']> (b :: l)) with (b' :: l).
    rewrite !sum_cons. lia.
  - change (<[S i := b']> (x :: l)) with (x :: <[i := b']> l).
    rewrite !sum_cons, (IH i Hb). lia.
Qed.

Lemma slice_insert_inside (a b i : nat) (v : Z) (l : list Z) :
  (a <= i < b)%nat -> slice a b (<[i := v]> l) = <[(i - a)%nat := v]> (slice a b l).
Proof.
  intros [Hai Hib]. unfold slice.
  rewrite drop_insert_ge by exact Hai. apply take_insert_lt. lia.
Qed.

Lemma slice_lookup (a b i : nat) (l : list Z) :
  (a <= i < b)%nat -> slice a b l !! (i - a)%nat = l !! i.
Proof.
  intros [Hai Hib]. unfold slice.
  rewrite lookup_take_lt by lia. rewrite lookup_drop. f_equal. lia.
Qed.

Lemma finalized_sum_zero (crc8 : list Z -> Z) (s : state) :
  (33 <= length (data s))%nat -> sum (slice 1 33 (finalized crc8 s)) mod 256 = 0.
Proof.
  intros Hlen.
  assert (H32 : finalized crc8 s !! 32%nat =
                Some ((- sum (slice 1 32 (finalized crc8 s))) mod 256)).
  { rewrite <- checksum_twos_complement.
    apply finalized_lookup_32. exact Hlen. }
  rewrite (slice_snoc 1 32 _ _ ltac:(lia) H32).
  apply sum_with_checksum.
Qed.

(** X1: a frame that finalize returned fails the receiver's check (bytes 1 to
    32 summing to 0 modulo 256) as soon as any one of those bytes is replaced
    by a different byte value: the checksum catches every single-byte
    corruption after the header byte. *)
Theorem X1_checksum_detects_single_byte_change
    (crc8 : list Z -> Z) (crc8_byte : forall l, 0 <= crc8 l < 256) (s : state) :
  well_formed s ->
  exists out s',
    DehumidifierStatusCommand.finalize crc8 s = (Ok out, s') /\
    DehumidifierSetCommand.finalize crc8 s = (Ok out, s') /\
    sum (slice 1 33 out) mod 256 = 0 /\
    forall (i : nat) (b' : Z),
      (1 <= i <= 32)%nat -> byte b' -> out !! i <> Some b' ->
      sum (slice 1 33 (<[i := b']> out)) mod 256 <> 0.
Proof.
  intros [Hlen Hbytes].
  assert (Hlen' : (33 <= length (data s))%nat) by lia.
  eexists _, _.
  split; [apply (finalize_run crc8 crc8_byte s Hlen') |].
  split; [apply (finalize_run_set crc8 crc8_byte s Hlen') |].
  pose proof (finalized_sum_zero crc8 s Hlen') as Hzero.
  split; [exact Hzero |].
  intros i b' Hi Hb' Hne.
  destruct (lookup_lt_is_Some_2 (finalized crc8 s) i) as [b Hb];
    [rewrite length_finalized; lia |].
  pose proof (Forall_lookup_1 _ _ _ _ (byte_finalized crc8 s crc8_byte Hbytes) Hb)
    as Hbyte.
  rewrite slice_insert_inside by lia.
  rewrite (sum_insert _ _ b) by (rewrite slice_lookup by lia; exact Hb).
  assert (b <> b') by congruence.
  unfold byte in Hb', Hbyte.
  set (total := sum (slice 1 33 (finalized crc8 s))) in *.
  clearbody total. clear -Hzero Hb' Hbyte H.
  intros Hbad.
  apply Z.mod_divide in Hzero; [| lia].
  apply Z.mod_divide in Hbad; [| lia].
  destruct Hzero as [k ->]. destruct Hbad as [k' Hk']. lia.
Qed.

(** X1 on a fresh set command: flipping the mode byte of the finalized frame
    from 0x01 to 0x02 breaks the check. *)
Lemma X1_checksum_detects_single_byte_change_witness :
  well_formed (State 0 DehumidifierSetCommand.__init__) /\
  exists out s',
    DehumidifierSetCommand.finalize sum8
      (State 0 DehumidifierSetCommand.__init__) = (Ok out, s') /\
    sum (slice 1 33 (<[12%nat := 0x02]> out)) mod 256 <> 0.
Proof.
  split; [apply well_formed_set_init |].
  destruct (X1_checksum_detects_single_byte_change sum8 sum8_byte _
              (well_formed_set_init 0))
    as (out & s' & _ & Hset & _ & Hdetect).
  exists out, s'. split; [exact Hset |].
  apply Hdetect; [lia | unfold byte; lia |].
  rewrite finalize_run_set in Hset by (exact sum8_byte || (simpl; lia)).
  injection Hset as <- _. discriminate.
Defined.

(** X2: on a buffer shorter than 33 bytes finalize, of either class, raises
    IndexError and returns no frame, yet the order counter has already been
    advanced by one modulo 256; the buffer keeps its length and its bytes at
    offsets 0 to 29. *)
Theorem X2_finalize_short_buffer
    (crc8 : list Z -> Z) (crc8_byte : forall l, 0 <= crc8 l < 256) (s : state) :
  (length (data s) < 33)%nat ->
  exists s',
    DehumidifierStatusCommand.finalize crc8 s = (Raise IndexError, s') /\
    DehumidifierSetCommand.finalize crc8 s = (Raise IndexError, s') /\
    _order s' = (_order s + 1) mod 256 /\
    length (data s') = length (data s) /\
    forall i : nat, (i < 30)%nat -> data s' !! i = data s !! i.
Proof.
  intros Hlen.
  assert (Hrun : exists s',
    DehumidifierStatusCommand.finalize crc8 s = (Raise IndexError, s') /\
    _order s' = (_order s + 1) mod 256 /\
    length (data s') = length (data s) /\
    forall i : nat, (i < 30)%nat -> data s' !! i = data s !! i).
  { unfold DehumidifierStatusCommand.finalize.
    unfold mbind, ST_bind, get_order, set_order, getslice, to_bytes, setitem.
    cbn [data _order].
    destruct (decide (30 < length (data s))%nat) as [H30 | H30].
    - rewrite decide_True by apply byte_land_255.
      cbn [data _order].
      destruct (decide (31 < length (<[30%nat := Z.land (_order s + 1) 255]> (data s)))%nat)
        as [H31 | H31].
      + rewrite decide_True by apply crc8_byte.
        cbn [data _order].
        rewrite decide_False by (rewrite !length_insert; lia).
        eexists. split; [reflexivity |]. cbn [data _order].
        split; [apply land_255 |].
        split; [rewrite !length_insert; reflexivity |].
        intros i Hi. rewrite !list_lookup_insert_ne by lia. reflexivity.
      + eexists. split; [reflexivity |]. cbn [data _order].
        split; [apply land_255 |].
        split; [rewrite !length_insert; reflexivity |].
        intros i Hi. rewrite !list_lookup_insert_ne by lia. reflexivity.
    - eexists. split; [reflexivity |]. cbn [data _order].
      split; [apply land_255 |]. split; reflexivity. }
  destruct Hrun as (s' & Hrun & Horder & Hlength & Hframe).
  exists s'. split; [exact Hrun |]. split; [exact Hrun |].
  split; [exact Horder |]. split; [exact Hlength | exact Hframe].
Qed.

(** X2 on a buffer of 31 bytes with the counter at 255: no frame, and the
    counter has wrapped to 0. *)
Lemma X2_finalize_short_buffer_witness :
  (length (data (State 255 (replicate 31 0%Z))) < 33)%nat /\
  exists s',
    DehumidifierSetCommand.finalize sum8 (State 255 (replicate 31 0%Z)) =
      (Raise IndexError, s') /\
    _order s' = 0.
Proof.
  assert (Hlen : (length (data (State 255 (replicate 31 0%Z))) < 33)%nat)
    by (simpl; lia).
  split; [exact Hlen |].
  destruct (X2_finalize_short_buffer sum8 sum8_byte _ Hlen)
    as (s' & _ & Hset & Horder & _).
  exists s'. split; [exact Hset |]. rewrite Horder. reflexivity.
Defined.

(** ** Property assignments on a set command *)

Lemma masked_read (b m v : Z) :
  Z.land (Z.lor (Z.land b (Z.lnot m)) v) m = Z.land v m.
Proof.
  rewrite Z.land_lor_distr_l, <- Z.land_assoc.
  rewrite (Z.land_comm (Z.lnot m)), Z.land_lnot_diag, Z.land_0_r.
  apply Z.lor_0_l.
Qed.

Lemma cleared_read (b m : Z) : Z.land (Z.land b (Z.lnot m)) m = 0.
Proof.
  rewrite <- Z.land_assoc, (Z.land_comm (Z.lnot m)), Z.land_lnot_diag.
  apply Z.land_0_r.
Qed.

Lemma byte_lor_inv (a v : Z) : byte a -> byte (Z.lor a v) -> byte v.
Proof.
  intros Ha. rewrite !byte_iff_land. intros Hor.
  assert (Habsorb : Z.land v (Z.lor a v) = v).
  { apply Z.bits_inj'. intros n Hn.
    rewrite Z.land_spec, Z.lor_spec.
    destruct (Z.testbit a n), (Z.testbit v n); reflexivity. }
  rewrite <- Habsorb at 1.
  rewrite <- Z.land_assoc, Hor. exact Habsorb.
Qed.

Lemma read_fields_run (s : state) (b11 b19 b17 b12 b13 : Z) :
  data s !! 11%nat = Some b11 -> data s !! 19%nat = Some b19 ->
  data s !! 17%nat = Some b17 -> data s !! 12%nat = Some b12 ->
  data s !! 13%nat = Some b13 ->
  read_fields s = (Ok (fields_of_bytes b11 b19 b17 b12 b13), s).
Proof.
  intros H11 H19 H17 H12 H13.
  unfold read_fields, DehumidifierSetCommand.is_on, DehumidifierSetCommand.ion_mode,
    DehumidifierSetCommand.target_humidity, DehumidifierSetCommand.mode,
    DehumidifierSetCommand.fan_speed, mbind, ST_bind, getitem.
  rewrite H11. cbn. rewrite H19. cbn. rewrite H17. cbn.
  rewrite H12. cbn. rewrite H13. reflexivity.
Qed.

(** The five bytes behind the properties, on a well-formed command. *)
Lemma property_bytes (s : state) :
  well_formed s ->
  exists b11 b19 b17 b12 b13,
    (data s !! 11%nat = Some b11 /\ byte b11) /\
    (data s !! 19%nat = Some b19 /\ byte b19) /\
    (data s !! 17%nat = Some b17 /\ byte b17) /\
    (data s !! 12%nat = Some b12 /\ byte b12) /\
    (data s !! 13%nat = Some b13 /\ byte b13).
Proof.
  intros Hwf.
  destruct (well_formed_lookup s 11 Hwf) as (b11 & H11); [lia |].
  destruct (well_formed_lookup s 19 Hwf) as (b19 & H19); [lia |].
  destruct (well_formed_lookup s 17 Hwf) as (b17 & H17); [lia |].
  destruct (well_formed_lookup s 12 Hwf) as (b12 & H12); [lia |].
  destruct (well_formed_lookup s 13 Hwf) as (b13 & H13); [lia |].
  exists b11, b19, b17, b12, b13. tauto.
Qed.

Lemma land_flag (mask : Z) (v : bool) :
  mask <> 0 -> negb (Z.land (if v then mask else 0) mask =? 0) = v.
Proof.
  intros Hmask. destruct v.
  - rewrite Z.land_diag. destruct (Z.eqb_spec mask 0); [contradiction | reflexivity].
  - reflexivity.
Qed.

(** Reading the properties after a successful [assign_field]. *)
Ltac read_after_insert :=
  erewrite read_fields_run;
  [| cbn [data];
     first [ apply list_lookup_insert_eq; eapply lookup_lt_Some; eassumption
           | rewrite list_lookup_insert_ne by lia; eassumption ] .. ].

(** X3: on a well-formed set command every setter accepts any byte value,
    and afterwards its own getter returns the value reduced to the field
    (the boolean itself for isOn and ionMode, the value modulo 16 for mode,
    modulo 128 for fanSpeed and targetHumidity) while the other four getters
    return what they returned before. *)
Theorem X3_setter_then_getters (s : state) :
  well_formed s ->
  exists f, read_fields s = (Ok f, s) /\
    (forall v : bool, exists s',
        (DehumidifierSetCommand.set_is_on v;; read_fields) s =
          (Ok (Fields v (fields_ion_mode f) (fields_target_humidity f)
                 (fields_mode f) (fields_fan_speed f)), s')) /\
    (forall v : bool, exists s',
        (DehumidifierSetCommand.set_ion_mode v;; read_fields) s =
          (Ok (Fields (fields_is_on f) v (fields_target_humidity f)
                 (fields_mode f) (fields_fan_speed f)), s')) /\
    (forall v : Z, 0 <= v < 256 -> exists s',
        (DehumidifierSetCommand.set_target_humidity v;; read_fields) s =
          (Ok (Fields (fields_is_on f) (fields_ion_mode f) (v mod 128)
                 (fields_mode f) (fields_fan_speed f)), s')) /\
    (forall v : Z, 0 <= v < 256 -> exists s',
        (DehumidifierSetCommand.set_mode v;; read_fields) s =
          (Ok (Fields (fields_is_on f) (fields_ion_mode f)
                 (fields_target_humidity f) (v mod 16) (fields_fan_speed f)), s')) /\
    (forall v : Z, 0 <= v < 256 -> exists s',
        (DehumidifierSetCommand.set_fan_speed v;; read_fields) s =
          (Ok (Fields (fields_is_on f) (fields_ion_mode f)
                 (fields_target_humidity f) (fields_mode f) (v mod 128)), s')).
Proof.
  intros Hwf.
  destruct (property_bytes s Hwf)
    as (b11 & b19 & b17 & b12 & b13 & [H11 B11] & [H19 B19] & [H17 B17]
        & [H12 B12] & [H13 B13]).
  exists (fields_of_bytes b11 b19 b17 b12 b13).
  split; [apply read_fields_run; assumption |].
  cbn [fields_of_bytes fields_is_on fields_ion_mode fields_target_humidity
       fields_mode fields_fan_speed].
  repeat split.
  - intros v. eexists.
    change (DehumidifierSetCommand.set_is_on v)
      with (assign_field 11 0x01 (if v then 0x01 else 0)).
    unfold mbind at 1, ST_bind at 1.
    rewrite (assign_field_run 11 _ _ s b11 H11 B11)
      by (apply flag_byte; unfold byte; lia).
    read_after_insert.
    unfold fields_of_bytes. rewrite masked_read, land_flag by lia. reflexivity.
  - intros v. eexists.
    change (DehumidifierSetCommand.set_ion_mode v)
      with (assign_field 19 0x60 (if v then 0x60 else 0)).
    unfold mbind at 1, ST_bind at 1.
    rewrite (assign_field_run 19 _ _ s b19 H19 B19)
      by (apply flag_byte; unfold byte; lia).
    read_after_insert.
    unfold fields_of_bytes. rewrite masked_read, land_flag by lia. reflexivity.
  - intros v Hv. eexists.
    change (DehumidifierSetCommand.set_target_humidity v)
      with (assign_field 17 0x7F v).
    unfold mbind at 1, ST_bind at 1.
    rewrite (assign_field_run 17 _ _ s b17 H17 B17 Hv).
    read_after_insert.
    unfold fields_of_bytes. rewrite masked_read.
    change 0x7F with (Z.ones 7). rewrite (Z.land_ones v) by lia. reflexivity.
  - intros v Hv. eexists.
    change (DehumidifierSetCommand.set_mode v) with (assign_field 12 0x0F v).
    unfold mbind at 1, ST_bind at 1.
    rewrite (assign_field_run 12 _ _ s b12 H12 B12 Hv).
    read_after_insert.
    unfold fields_of_bytes. rewrite masked_read.
    change 0x0F with (Z.ones 4). rewrite (Z.land_ones v) by lia. reflexivity.
  - intros v Hv. eexists.
    change (DehumidifierSetCommand.set_fan_speed v) with (assign_field 13 0x7F v).
    unfold mbind at 1, ST_bind at 1.
    rewrite (assign_field_run 13 _ _ s b13 H13 B13 Hv).
    read_after_insert.
    unfold fields_of_bytes. rewrite masked_read.
    change 0x7F with (Z.ones 7). rewrite (Z.land_ones v) by lia. reflexivity.
Qed.

(** X3 on a fresh set command: mode 0x13 is accepted and reads back as 3. *)
Lemma X3_setter_then_getters_witness :
  well_formed (State 0 DehumidifierSetCommand.__init__) /\
  exists s',
    (DehumidifierSetCommand.set_mode 0x13;; read_fields)
      (State 0 DehumidifierSetCommand.__init__) =
      (Ok (Fields false false 0 3 0x32), s').
Proof.
  split; [apply well_formed_set_init |].
  destruct (X3_setter_then_getters _ (well_formed_set_init 0))
    as (f & Hf & _ & _ & _ & Hmode & _).
  injection Hf as <-.
  apply (Hmode 0x13). lia.
Defined.

Lemma assign_field_raise (i : nat) (mask v : Z) (s : state) (b : Z) :
  data s !! i = Some b -> byte b -> ~ byte v ->
  assign_field i mask v s =
    (Raise ValueError, State (_order s) (<[i := Z.land b (Z.lnot mask)]> (data s))).
Proof.
  intros Hb Hbyte Hv.
  pose proof (lookup_lt_Some _ _ _ Hb) as Hi.
  unfold assign_field, mbind, ST_bind, getitem, setitem.
  rewrite Hb.
  rewrite decide_True by exact Hi.
  rewrite decide_True by (apply byte_land_l; exact Hbyte).
  cbn [data _order].
  rewrite list_lookup_insert_eq by exact Hi.
  cbn [data _order].
  rewrite decide_True by (rewrite length_insert; exact Hi).
  rewrite decide_False; [reflexivity |].
  intros Hor. apply Hv.
  apply (byte_lor_inv (Z.land b (Z.lnot mask))); [apply byte_land_l; exact Hbyte |].
  exact Hor.
Qed.

(** X4: on a well-formed set command the integer setters (targetHumidity,
    mode, fanSpeed) raise ValueError for every value outside [0, 255], and
    they raise after having cleared the field: the command is left with that
    property reading 0 and the other four unchanged. *)
Theorem X4_setter_rejects_non_bytes (s : state) :
  well_formed s ->
  exists f, read_fields s = (Ok f, s) /\
    (forall v : Z, ~ 0 <= v < 256 -> exists s',
        DehumidifierSetCommand.set_target_humidity v s = (Raise ValueError, s') /\
        read_fields s' =
          (Ok (Fields (fields_is_on f) (fields_ion_mode f) 0
                 (fields_mode f) (fields_fan_speed f)), s')) /\
    (forall v : Z, ~ 0 <= v < 256 -> exists s',
        DehumidifierSetCommand.set_mode v s = (Raise ValueError, s') /\
        read_fields s' =
          (Ok (Fields (fields_is_on f) (fields_ion_mode f)
                 (fields_target_humidity f) 0 (fields_fan_speed f)), s')) /\
    (forall v : Z, ~ 0 <= v < 256 -> exists s',
        DehumidifierSetCommand.set_fan_speed v s = (Raise ValueError, s') /\
        read_fields s' =
          (Ok (Fields (fields_is_on f) (fields_ion_mode f)
                 (fields_target_humidity f) (fields_mode f) 0), s')).
Proof.
  intros Hwf.
  destruct (property_bytes s Hwf)
    as (b11 & b19 & b17 & b12 & b13 & [H11 B11] & [H19 B19] & [H17 B17]
        & [H12 B12] & [H13 B13]).
  exists (fields_of_bytes b11 b19 b17 b12 b13).
  split; [apply read_fields_run; assumption |].
  cbn [fields_of_bytes fields_is_on fields_ion_mode fields_target_humidity
       fields_mode fields_fan_speed].
  repeat split.
  - intros v Hv. eexists. split.
    + exact (assign_field_raise 17 0x7F v s b17 H17 B17 Hv).
    + read_after_insert. unfold fields_of_bytes. rewrite cleared_read. reflexivity.
  - intros v Hv. eexists. split.
    + exact (assign_field_raise 12 0x0F v s b12 H12 B12 Hv).
    + read_after_insert. unfold fields_of_bytes. rewrite cleared_read. reflexivity.
  - intros v Hv. eexists. split.
    + exact (assign_field_raise 13 0x7F v s b13 H13 B13 Hv).
    + read_after_insert. unfold fields_of_bytes. rewrite cleared_read. reflexivity.
Qed.

(** X4 on a fresh set command, whose fan speed is 0x32: assigning 256 raises
    and leaves the fan speed at 0. *)
Lemma X4_setter_rejects_non_bytes_witness :
  well_formed (State 0 DehumidifierSetCommand.__init__) /\
  exists s',
    DehumidifierSetCommand.set_fan_speed 256
      (State 0 DehumidifierSetCommand.__init__) = (Raise ValueError, s') /\
    read_fields s' = (Ok (Fields false false 0 1 0), s').
Proof.
  split; [apply well_formed_set_init |].
  destruct (X4_setter_rejects_non_bytes _ (well_formed_set_init 0))
    as (f & Hf & _ & _ & Hfan).
  injection Hf as <-.
  apply (Hfan 256). lia.
Defined.

Lemma assign_shape (a : assignment) :
  assign a = assign_field (offset_of a) (mask_of a) (value_of a).
Proof. destruct a; reflexivity. Qed.

Lemma offset_of_lt (a : assignment) : (offset_of a < 33)%nat.
Proof. destruct a; cbn; lia. Qed.

Lemma mask_of_offset (a b : assignment) :
  offset_of a = offset_of b -> mask_of a = mask_of b.
Proof. destruct a, b; cbn; intros H; first [reflexivity | discriminate H]. Qed.

Lemma fits_byte (a : assignment) : fits a -> byte (value_of a).
Proof.
  unfold fits. intros Hfits. apply byte_iff_land.
  rewrite <- Hfits, <- Z.land_assoc. f_equal.
  destruct a; reflexivity.
Qed.

Lemma cleared_again (b m v : Z) :
  Z.land v m = v ->
  Z.land (Z.lor (Z.land b (Z.lnot m)) v) (Z.lnot m) = Z.land b (Z.lnot m).
Proof.
  intros Hv. apply Z.bits_inj'. intros n Hn.
  rewrite !Z.land_spec, Z.lor_spec, Z.land_spec, Z.lnot_spec by exact Hn.
  rewrite <- Hv, Z.land_spec.
  destruct (Z.testbit b n), (Z.testbit m n), (Z.testbit v n); reflexivity.
Qed.

(** X5: two assignments to the same property of a well-formed set command,
    each with a value that fits the field, leave the command exactly as the
    second assignment alone does: the last write wins and nothing of the
    first value remains. *)
Theorem X5_last_assignment_wins (s : state) (a b : assignment) :
  well_formed s -> fits a -> fits b -> offset_of a = offset_of b ->
  exists s', (assign a;; assign b) s = (Ok tt, s') /\ assign b s = (Ok tt, s').
Proof.
  intros Hwf Ha Hb Hsame.
  destruct (well_formed_lookup s (offset_of a) Hwf (offset_of_lt a))
    as (x & Hx & Hbyte).
  pose proof (lookup_lt_Some _ _ _ Hx) as Hlt.
  rewrite !assign_shape, <- Hsame, <- (mask_of_offset a b Hsame).
  unfold mbind, ST_bind.
  rewrite (assign_field_run _ _ _ s x Hx Hbyte (fits_byte a Ha)).
  rewrite (assign_field_run _ _ _ s x Hx Hbyte (fits_byte b Hb)).
  erewrite assign_field_run;
    [| cbn [data]; apply list_lookup_insert_eq; exact Hlt
     | apply byte_lor; [apply byte_land_l; exact Hbyte | apply fits_byte; exact Ha]
     | apply fits_byte; exact Hb].
  cbn [data _order].
  rewrite list_insert_insert_eq, (cleared_again x _ _ Ha).
  eexists. split; reflexivity.
Qed.

(** X5 on a fresh set command: mode 7 and then mode 2 is mode 2. *)
Lemma X5_last_assignment_wins_witness :
  exists s',
    (assign (Mode 7);; assign (Mode 2)) (State 0 DehumidifierSetCommand.__init__) =
      (Ok tt, s') /\
    assign (Mode 2) (State 0 DehumidifierSetCommand.__init__) = (Ok tt, s').
Proof.
  apply (X5_last_assignment_wins (State 0 DehumidifierSetCommand.__init__)
           (Mode 7) (Mode 2));
    first [apply well_formed_set_init | reflexivity].
Defined.

(** X6: assignments of byte values to two different properties of a
    well-formed set command both succeed and commute: either order leaves
    the same buffer. *)
Theorem X6_assignments_commute (s : state) (a b : assignment) :
  well_formed s -> byte (value_of a) -> byte (value_of b) ->
  offset_of a <> offset_of b ->
  exists s',
    (assign a;; assign b) s = (Ok tt, s') /\ (assign b;; assign a) s = (Ok tt, s').
Proof.
  intros Hwf Ha Hb Hne.
  destruct (well_formed_lookup s (offset_of a) Hwf (offset_of_lt a))
    as (x & Hx & Hxbyte).
  destruct (well_formed_lookup s (offset_of b) Hwf (offset_of_lt b))
    as (y & Hy & Hybyte).
  rewrite !assign_shape. unfold mbind, ST_bind.
  rewrite (assign_field_run _ _ _ s x Hx Hxbyte Ha).
  rewrite (assign_field_run _ _ _ s y Hy Hybyte Hb).
  erewrite (assign_field_run (offset_of b));
    [| cbn [data]; rewrite list_lookup_insert_ne by exact Hne; exact Hy
     | exact Hybyte | exact Hb].
  erewrite (assign_field_run (offset_of a));
    [| cbn [data]; rewrite list_lookup_insert_ne by congruence; exact Hx
     | exact Hxbyte | exact Ha].
  cbn [data _order].
  eexists. split; [reflexivity |].
  rewrite list_insert_insert_ne by exact Hne. reflexivity.
Qed.

(** X6 on a fresh set command: power on and fan speed 80, in either order. *)
Lemma X6_assignments_commute_witness :
  exists s',
    (assign (IsOn true);; assign (FanSpeed 80))
      (State 0 DehumidifierSetCommand.__init__) = (Ok tt, s') /\
    (assign (FanSpeed 80);; assign (IsOn true))
      (State 0 DehumidifierSetCommand.__init__) = (Ok tt, s').
Proof.
  apply (X6_assignments_commute (State 0 DehumidifierSetCommand.__init__)
           (IsOn true) (FanSpeed 80));
    first [apply well_formed_set_init | unfold byte; cbn; lia | cbn; lia].
Defined.

(** ** What a decoded response can hold *)

Lemma response_run (data : list Z) (b2 b3 b4 b5 b6 b7 b9 b10 b16 b21 : Z) :
  data !! 2%nat = Some b2 -> data !! 3%nat = Some b3 -> data !! 4%nat = Some b4 ->
  data !! 5%nat = Some b5 -> data !! 6%nat = Some b6 -> data !! 7%nat = Some b7 ->
  data !! 9%nat = Some b9 -> data !! 10%nat = Some b10 ->
  data !! 16%nat = Some b16 -> data !! 21%nat = Some b21 ->
  DehumidifierResponse.__init__ data =
    Ok (response_of_bytes b2 b3 b4 b5 b6 b7 b9 b10 b16 b21).
Proof.
  intros H2 H3 H4 H5 H6 H7 H9 H10 H16 H21.
  unfold DehumidifierResponse.__init__, index.
  rewrite H2, H3, H4, H5, H6, H7, H9, H10, H16, H21. reflexivity.
Qed.

Lemma response_inversion (data : list Z) (r : DehumidifierResponse.t) :
  DehumidifierResponse.__init__ data = Ok r ->
  exists b2 b3 b4 b5 b6 b7 b9 b10 b16 b21,
    r = response_of_bytes b2 b3 b4 b5 b6 b7 b9 b10 b16 b21 /\
    data !! 2%nat = Some b2 /\ data !! 3%nat = Some b3 /\ data !! 4%nat = Some b4 /\
    data !! 5%nat = Some b5 /\ data !! 6%nat = Some b6 /\ data !! 7%nat = Some b7 /\
    data !! 9%nat = Some b9 /\ data !! 10%nat = Some b10 /\
    data !! 16%nat = Some b16 /\ data !! 21%nat = Some b21.
Proof.
  intros Hinit.
  destruct (data !! 2%nat) as [b2 |] eqn:H2;
  destruct (data !! 3%nat) as [b3 |] eqn:H3;
  destruct (data !! 4%nat) as [b4 |] eqn:H4;
  destruct (data !! 5%nat) as [b5 |] eqn:H5;
  destruct (data !! 6%nat) as [b6 |] eqn:H6;
  destruct (data !! 7%nat) as [b7 |] eqn:H7;
  destruct (data !! 9%nat) as [b9 |] eqn:H9;
  destruct (data !! 10%nat) as [b10 |] eqn:H10;
  destruct (data !! 16%nat) as [b16 |] eqn:H16;
  destruct (data !! 21%nat) as [b21 |] eqn:H21;
  unfold DehumidifierResponse.__init__, index in Hinit;
  rewrite ?H2, ?H3, ?H4, ?H5, ?H6, ?H7, ?H9, ?H10, ?H16, ?H21 in Hinit;
  cbn in Hinit; try discriminate Hinit.
  injection Hinit as <-.
  exists b2, b3, b4, b5, b6, b7, b9, b10, b16, b21.
  repeat split; reflexivity.
Qed.

Lemma land_ones_range (x k : Z) : 0 <= k -> 0 <= Z.land x (Z.ones k) < 2 ^ k.
Proof.
  intros Hk. rewrite Z.land_ones by exact Hk.
  apply Z.mod_pos_bound. apply Z.pow_pos_nonneg; lia.
Qed.

Lemma fits_range (x k : Z) : 0 <= k -> Z.land x (Z.ones k) = x -> 0 <= x < 2 ^ k.
Proof. intros Hk <-. apply land_ones_range. exact Hk. Qed.

Lemma timer_hour_range (v : Z) : 0 <= Z.shiftr (Z.land v 0x7C) 2 <= 31.
Proof.
  rewrite Z.shiftr_land. change (Z.shiftr 0x7C 2) with (Z.ones 5).
  pose proof (land_ones_range (Z.shiftr v 2) 5 ltac:(lia)) as H.
  change (2 ^ 5) with 32 in H. lia.
Qed.

Lemma timer_minutes_range (a b : Z) :
  Z.land a (Z.ones 4) = a -> Z.land b (Z.ones 4) = b -> 0 <= Z.lor a b <= 15.
Proof.
  intros Ha Hb.
  assert (H : 0 <= Z.lor a b < 2 ^ 4).
  { apply fits_range; [lia |]. rewrite Z.land_lor_distr_l, Ha, Hb. reflexivity. }
  change (2 ^ 4) with 16 in H. lia.
Qed.

Lemma land_land_mask (x m k : Z) : Z.land m k = m -> Z.land (Z.land x m) k = Z.land x m.
Proof. intros Hm. rewrite <- Z.land_assoc, Hm. reflexivity. Qed.

(** X7: whatever bytes a response buffer holds, the decoded mode lies in
    [0, 15], the fan speed in [0, 127] and the target humidity in [0, 100]
    (a raw value above 100 is replaced by 99, 100 itself is kept); both
    timers decode to an hour in [0, 31] and minutes in [0, 15]. *)
Theorem X7_decoded_fields_in_range (data : list Z) (r : DehumidifierResponse.t) :
  Forall byte data ->
  DehumidifierResponse.__init__ data = Ok r ->
  0 <= DehumidifierResponse._mode r <= 15 /\
  0 <= DehumidifierResponse._fan_speed r <= 127 /\
  0 <= DehumidifierResponse._target_humidity r <= 100 /\
  (forall raw, data !! 7%nat = Some raw ->
     DehumidifierResponse._target_humidity r = if raw <=? 100 then raw else 99) /\
  0 <= DehumidifierResponse.hour (DehumidifierResponse.on_timer r) <= 31 /\
  0 <= DehumidifierResponse.minutes (DehumidifierResponse.on_timer r) <= 15 /\
  0 <= DehumidifierResponse.hour (DehumidifierResponse.off_timer r) <= 31 /\
  0 <= DehumidifierResponse.minutes (DehumidifierResponse.off_timer r) <= 15.
Proof.
  intros Hbytes Hinit.
  destruct (response_inversion data r Hinit)
    as (b2 & b3 & b4 & b5 & b6 & b7 & b9 & b10 & b16 & b21 & -> & H2 & H3 & H4
        & H5 & H6 & H7 & H9 & H10 & H16 & H21).
  pose proof (Forall_lookup_1 _ _ _ _ Hbytes H7) as B7. unfold byte in B7.
  unfold DehumidifierResponse.on_timer, DehumidifierResponse.off_timer.
  cbn [response_of_bytes DehumidifierResponse._mode DehumidifierResponse._fan_speed
       DehumidifierResponse._target_humidity DehumidifierResponse.hour
       DehumidifierResponse.minutes DehumidifierResponse.on_timer_value
       DehumidifierResponse.on_timer_minutes DehumidifierResponse.off_timer_value
       DehumidifierResponse.off_timer_minutes].
  split.
  { pose proof (land_ones_range b2 4 ltac:(lia)) as H.
    change (Z.ones 4) with 15 in H. change (2 ^ 4) with 16 in H. lia. }
  split.
  { pose proof (land_ones_range b3 7 ltac:(lia)) as H.
    change (Z.ones 7) with 0x7F in H. change (2 ^ 7) with 128 in H. lia. }
  split.
  { destruct (Z.ltb_spec 100 b7); lia. }
  split.
  { intros raw Hraw. rewrite H7 in Hraw. injection Hraw as <-.
    destruct (Z.ltb_spec 100 b7), (Z.leb_spec b7 100); lia. }
  split.
  { destruct (negb (b4 =? 0x7F)); [apply timer_hour_range | lia]. }
  split.
  { apply timer_minutes_range.
    - apply (land_land_mask b4 0x3). reflexivity.
    - destruct (negb (b4 =? 0x7F)); [| reflexivity].
      rewrite Z.shiftr_land. apply (land_land_mask _ (Z.shiftr 0xF0 4)). reflexivity. }
  split.
  { apply timer_hour_range. }
  apply timer_minutes_range.
  - apply (land_land_mask b5 0x3). reflexivity.
  - apply (land_land_mask b6 0xF). reflexivity.
Qed.

(** X7 on a buffer of 22 bytes 0xFF: the raw target humidity 255 decodes
    as 99. *)
Lemma X7_decoded_fields_in_range_witness :
  exists r,
    DehumidifierResponse.__init__ (replicate 22 0xFF) = Ok r /\
    DehumidifierResponse._target_humidity r = 99 /\
    0 <= DehumidifierResponse.minutes (DehumidifierResponse.off_timer r) <= 15.
Proof.
  assert (Hbytes : Forall byte (replicate 22 0xFF)).
  { apply Forall_replicate. unfold byte. lia. }
  eexists. split; [reflexivity |].
  destruct (X7_decoded_fields_in_range (replicate 22 0xFF) _ Hbytes eq_refl)
    as (_ & _ & _ & Hraw & _ & _ & _ & Hminutes).
  split; [exact (Hraw 0xFF eq_refl) | exact Hminutes].
Defined.

(** X8: the constructor of a response looks at the ten offsets 2, 3, 4, 5,
    6, 7, 9, 10, 16 and 21 only: overwriting the byte at any other offset
    changes neither whether the buffer decodes nor what it decodes to. *)
Theorem X8_response_ignores_other_bytes (data : list Z) (i : nat) (h : Z) :
  i ∉ read_offsets ->
  DehumidifierResponse.__init__ (<[i := h]> data) =
    DehumidifierResponse.__init__ data.
Proof.
  unfold read_offsets. rewrite !not_elem_of_cons.
  intros (H2 & H3 & H4 & H5 & H6 & H7 & H9 & H10 & H16 & H21 & _).
  unfold DehumidifierResponse.__init__, index.
  rewrite !list_lookup_insert_ne by assumption. reflexivity.
Qed.

(** X8 at offset 1 of a buffer of 22 bytes. *)
Lemma X8_response_ignores_other_bytes_witness :
  DehumidifierResponse.__init__ (<[1%nat := 0x01]> (replicate 22 0)) =
    DehumidifierResponse.__init__ (replicate 22 0).
Proof.
  apply (X8_response_ignores_other_bytes (replicate 22 0) 1 0x01).
  unfold read_offsets. rewrite !not_elem_of_cons.
  repeat split; first [lia | apply not_elem_of_nil].
Defined.

Lemma land_1_odd (b : Z) : negb (Z.land b 1 =? 0) = Z.odd b.
Proof.
  change 1 with (Z.ones 1) at 1. rewrite Z.land_ones by lia.
  change (2 ^ 1) with 2. rewrite Zmod_odd.
  destruct (Z.odd b); reflexivity.
Qed.

(** X9: the power flag and the on-timer are decoded from the same byte
    (offset 4): a response decodes as switched on exactly when its on-timer
    byte is odd, so a response whose on-timer is not set (byte 0x7F)
    always decodes as switched on. *)
Theorem X9_is_on_follows_on_timer_byte (data : list Z) (r : DehumidifierResponse.t) :
  DehumidifierResponse.__init__ data = Ok r ->
  DehumidifierResponse._is_on r = Z.odd (DehumidifierResponse.on_timer_value r) /\
  data !! 4%nat = Some (DehumidifierResponse.on_timer_value r) /\
  (DehumidifierResponse.set (DehumidifierResponse.on_timer r) = false ->
   DehumidifierResponse._is_on r = true).
Proof.
  intros Hinit.
  destruct (response_inversion data r Hinit)
    as (b2 & b3 & b4 & b5 & b6 & b7 & b9 & b10 & b16 & b21 & -> & H2 & H3 & H4
        & H5 & H6 & H7 & H9 & H10 & H16 & H21).
  unfold DehumidifierResponse.on_timer.
  cbn [response_of_bytes DehumidifierResponse._is_on DehumidifierResponse.set
       DehumidifierResponse.on_timer_value].
  split; [apply land_1_odd |]. split; [exact H4 |].
  intros Hset. rewrite land_1_odd.
  destruct (Z.eqb_spec b4 0x7F) as [-> | _]; [reflexivity | discriminate Hset].
Qed.

(** X9 on a buffer whose byte 4 is the sentinel 0x7F. *)
Lemma X9_is_on_follows_on_timer_byte_witness :
  exists r,
    DehumidifierResponse.__init__ (replicate 4 0 ++ 0x7F :: replicate 17 0) = Ok r /\
    DehumidifierResponse._is_on r = true.
Proof.
  eexists. split; [reflexivity |].
  apply (X9_is_on_follows_on_timer_byte
           (replicate 4 0 ++ 0x7F :: replicate 17 0) _ eq_refl).
  reflexivity.
Defined.

(** ** A finalized set command read with the response decoder *)

Lemma assign_then_finalize_frame (crc8 : list Z -> Z) (i : nat) (mask v : Z)
    (s : state) (b : Z) :
  (forall l, 0 <= crc8 l < 256) ->
  well_formed s -> (i < 30)%nat -> data s !! i = Some b -> byte v ->
  exists wire s',
    (assign_field i mask v;; DehumidifierSetCommand.finalize crc8) s = (Ok wire, s') /\
    length wire = 33%nat /\
    wire !! i = Some (Z.lor (Z.land b (Z.lnot mask)) v) /\
    forall j : nat, (j < 30)%nat -> j <> i -> wire !! j = data s !! j.
Proof.
  intros Hcrc Hwf Hi Hb Hv.
  destruct (well_formed_lookup s i Hwf) as (b' & Hb' & Hbyte); [lia |].
  rewrite Hb in Hb'. injection Hb' as <-.
  destruct Hwf as [Hlen _].
  eexists _, _.
  unfold mbind at 1, ST_bind at 1.
  rewrite (assign_field_run i mask v s b Hb Hbyte Hv).
  rewrite finalize_run_set;
    [| exact Hcrc | cbn [data]; rewrite length_insert; lia].
  split; [reflexivity |].
  split; [rewrite length_finalized; cbn [data]; rewrite length_insert; exact Hlen |].
  split.
  - rewrite finalized_lookup_other by lia.
    cbn [data]. apply list_lookup_insert_eq. lia.
  - intros j Hj Hne. rewrite finalized_lookup_other by lia.
    cbn [data]. apply list_lookup_insert_ne. congruence.
Qed.

Lemma payload_lookup (wire : list Z) (k : nat) :
  payload wire !! k = wire !! (10 + k)%nat.
Proof. unfold payload. apply lookup_drop. Qed.

(** The payload of a 33-byte frame decodes, from the frame bytes at offsets
    12 to 31. *)
Lemma payload_decodes (wire : list Z) :
  length wire = 33%nat ->
  exists b12 b13 b14 b15 b16 b17 b19 b20 b26 b31,
    wire !! 12%nat = Some b12 /\ wire !! 13%nat = Some b13 /\
    wire !! 14%nat = Some b14 /\ wire !! 17%nat = Some b17 /\
    wire !! 19%nat = Some b19 /\
    DehumidifierResponse.__init__ (payload wire) =
      Ok (response_of_bytes b12 b13 b14 b15 b16 b17 b19 b20 b26 b31).
Proof.
  intros Hlen.
  destruct (lookup_lt_is_Some_2 wire 12) as [b12 H12]; [lia |].
  destruct (lookup_lt_is_Some_2 wire 13) as [b13 H13]; [lia |].
  destruct (lookup_lt_is_Some_2 wire 14) as [b14 H14]; [lia |].
  destruct (lookup_lt_is_Some_2 wire 15) as [b15 H15]; [lia |].
  destruct (lookup_lt_is_Some_2 wire 16) as [b16 H16]; [lia |].
  destruct (lookup_lt_is_Some_2 wire 17) as [b17 H17]; [lia |].
  destruct (lookup_lt_is_Some_2 wire 19) as [b19 H19]; [lia |].
  destruct (lookup_lt_is_Some_2 wire 20) as [b20 H20]; [lia |].
  destruct (lookup_lt_is_Some_2 wire 26) as [b26 H26]; [lia |].
  destruct (lookup_lt_is_Some_2 wire 31) as [b31 H31]; [lia |].
  exists b12, b13, b14, b15, b16, b17, b19, b20, b26, b31.
  repeat (split; [assumption |]).
  apply response_run; rewrite payload_lookup; assumption.
Qed.

Lemma masked_read_within (b m m' v : Z) :
  Z.land m' m = m' ->
  Z.land (Z.lor (Z.land b (Z.lnot m)) v) m' = Z.land v m'.
Proof.
  intros Hm.
  transitivity (Z.land (Z.land (Z.lor (Z.land b (Z.lnot m)) v) m) m').
  - rewrite <- Z.land_assoc, (Z.land_comm m m'), Hm. reflexivity.
  - rewrite masked_read, <- Z.land_assoc, (Z.land_comm m m'), Hm. reflexivity.
Qed.

Lemma ion_bit_read (b : Z) (v : bool) :
  negb (Z.shiftr (Z.land (Z.lor (Z.land b (Z.lnot 0x60)) (if v then 0x60 else 0)) 64) 6 =? 0) = v.
Proof.
  rewrite (masked_read_within b 0x60 64) by reflexivity.
  destruct v; reflexivity.
Qed.

Lemma low_bits_cleared (b : Z) : 0 <= b < 128 -> Z.land b (Z.lnot 0x7F) = 0.
Proof.
  intros Hb.
  assert (Hfits : Z.land b 0x7F = b).
  { apply (fits_ones 7); [lia |]. change (Z.ones 7) with 127. lia. }
  rewrite <- Hfits, <- Z.land_assoc, Z.land_lnot_diag. apply Z.land_0_r.
Qed.

(** X10: the response decoder reads a payload in the layout the set command
    writes it.  Decoding the payload (the bytes after the ten header bytes) of
    a finalized set command gives back the mode, the fan speed and the ion
    flag just assigned, and the target humidity when it is at most 100 and
    bit 7 of its byte was clear.  The power flag is the exception: it is
    decoded from payload byte 4, which set_is_on does not write, so the
    decoded flag is the same whichever value was assigned. *)
Theorem X10_set_command_payload_decodes
    (crc8 : list Z -> Z) (crc8_byte : forall l, 0 <= crc8 l < 256) (s : state) :
  well_formed s ->
  (forall v : Z, 0 <= v <= 15 ->
     decodes_with (DehumidifierSetCommand.finalize crc8)
       (DehumidifierSetCommand.set_mode v) s
       (fun r => DehumidifierResponse._mode r = v)) /\
  (forall v : Z, 0 <= v <= 127 ->
     decodes_with (DehumidifierSetCommand.finalize crc8)
       (DehumidifierSetCommand.set_fan_speed v) s
       (fun r => DehumidifierResponse._fan_speed r = v)) /\
  (forall v b17 : Z, 0 <= v <= 100 -> data s !! 17%nat = Some b17 -> b17 < 128 ->
     decodes_with (DehumidifierSetCommand.finalize crc8)
       (DehumidifierSetCommand.set_target_humidity v) s
       (fun r => DehumidifierResponse._target_humidity r = v)) /\
  (forall v : bool,
     decodes_with (DehumidifierSetCommand.finalize crc8)
       (DehumidifierSetCommand.set_ion_mode v) s
       (fun r => DehumidifierResponse._ion_mode r = v)) /\
  (exists on : bool, forall v : bool,
     decodes_with (DehumidifierSetCommand.finalize crc8)
       (DehumidifierSetCommand.set_is_on v) s
       (fun r => DehumidifierResponse._is_on r = on)).
Proof.
  intros Hwf.
  destruct (property_bytes s Hwf)
    as (b11 & b19 & b17 & b12 & b13 & [H11 B11] & [H19 B19] & [H17 B17]
        & [H12 B12] & [H13 B13]).
  destruct (well_formed_lookup s 14 Hwf) as (b14 & H14 & B14); [lia |].
  repeat split.
  - intros v Hv. destruct (fits_15 v Hv) as [Hbyte Hfits].
    destruct (assign_then_finalize_frame crc8 12 0x0F v s b12 crc8_byte Hwf
                ltac:(lia) H12 Hbyte) as (wire & s' & Hrun & Hlen & Hnew & _).
    destruct (payload_decodes wire Hlen)
      as (c12 & c13 & c14 & c15 & c16 & c17 & c19 & c20 & c26 & c31
          & W12 & _ & _ & _ & _ & Hdecode).
    eexists wire, s', _. split; [exact Hrun |]. split; [exact Hdecode |].
    rewrite Hnew in W12. injection W12 as <-.
    cbn [response_of_bytes DehumidifierResponse._mode].
    apply masked_bits_read_back. exact Hfits.
  - intros v Hv. destruct (fits_127 v Hv) as [Hbyte Hfits].
    destruct (assign_then_finalize_frame crc8 13 0x7F v s b13 crc8_byte Hwf
                ltac:(lia) H13 Hbyte) as (wire & s' & Hrun & Hlen & Hnew & _).
    destruct (payload_decodes wire Hlen)
      as (c12 & c13 & c14 & c15 & c16 & c17 & c19 & c20 & c26 & c31
          & _ & W13 & _ & _ & _ & Hdecode).
    eexists wire, s', _. split; [exact Hrun |]. split; [exact Hdecode |].
    rewrite Hnew in W13. injection W13 as <-.
    cbn [response_of_bytes DehumidifierResponse._fan_speed].
    apply masked_bits_read_back. exact Hfits.
  - intros v b17' Hv H17' Hlow.
    rewrite H17 in H17'. injection H17' as <-.
    assert (Hbyte : byte v) by (unfold byte; lia).
    destruct (assign_then_finalize_frame crc8 17 0x7F v s b17 crc8_byte Hwf
                ltac:(lia) H17 Hbyte) as (wire & s' & Hrun & Hlen & Hnew & _).
    destruct (payload_decodes wire Hlen)
      as (c12 & c13 & c14 & c15 & c16 & c17 & c19 & c20 & c26 & c31
          & _ & _ & _ & W17 & _ & Hdecode).
    eexists wire, s', _. split; [exact Hrun |]. split; [exact Hdecode |].
    rewrite Hnew in W17. injection W17 as <-.
    cbn [response_of_bytes DehumidifierResponse._target_humidity].
    rewrite low_bits_cleared by (unfold byte in B17; lia).
    rewrite Z.lor_0_l. destruct (Z.ltb_spec 100 v); [lia | reflexivity].
  - intros v.
    destruct (assign_then_finalize_frame crc8 19 0x60 (if v then 0x60 else 0) s b19
                crc8_byte Hwf ltac:(lia) H19
                ltac:(apply flag_byte; unfold byte; lia))
      as (wire & s' & Hrun & Hlen & Hnew & _).
    destruct (payload_decodes wire Hlen)
      as (c12 & c13 & c14 & c15 & c16 & c17 & c19 & c20 & c26 & c31
          & _ & _ & _ & _ & W19 & Hdecode).
    eexists wire, s', _. split; [exact Hrun |]. split; [exact Hdecode |].
    rewrite Hnew in W19. injection W19 as <-.
    cbn [response_of_bytes DehumidifierResponse._ion_mode].
    apply ion_bit_read.
  - exists (negb (Z.land b14 1 =? 0)). intros v.
    destruct (assign_then_finalize_frame crc8 11 0x01 (if v then 0x01 else 0) s b11
                crc8_byte Hwf ltac:(lia) H11
                ltac:(apply flag_byte; unfold byte; lia))
      as (wire & s' & Hrun & Hlen & _ & Hframe).
    destruct (payload_decodes wire Hlen)
      as (c12 & c13 & c14 & c15 & c16 & c17 & c19 & c20 & c26 & c31
          & _ & _ & W14 & _ & _ & Hdecode).
    eexists wire, s', _. split; [exact Hrun |]. split; [exact Hdecode |].
    rewrite (Hframe 14%nat) in W14 by lia.
    rewrite H14 in W14. injection W14 as <-.
    reflexivity.
Qed.

(** X10 on a fresh set command: fan speed 80 survives the trip. *)
Lemma X10_set_command_payload_decodes_witness :
  well_formed (State 0 DehumidifierSetCommand.__init__) /\
  decodes_with (DehumidifierSetCommand.finalize sum8)
    (DehumidifierSetCommand.set_fan_speed 80)
    (State 0 DehumidifierSetCommand.__init__)
    (fun r => DehumidifierResponse._fan_speed r = 80).
Proof.
  split; [apply well_formed_set_init |].
  destruct (X10_set_command_payload_decodes sum8 sum8_byte _ (well_formed_set_init 0))
    as (_ & Hfan & _).
  apply Hfan. lia.
Defined.

(** * The command line *)

Section CliFacts.
Import Cli.
Local Open Scope string_scope.
Local Open Scope list_scope.

(** ** The loop over the attributes of the state type *)

Lemma scan_cons (attr : string) (kind : attribute) (typ : list (string * attribute))
    (all set : gmap string pyval) :
  (public attr = true /\ kind = Property false /\
   (exists v, all !! attr = Some v /\ is_not_none v = true) /\
   scan ((attr, kind) :: typ) all set = Returned 10) \/
  (public attr = true /\ kind = Property true /\
   exists v, all !! attr = Some v /\ is_not_none v = true /\
     scan ((attr, kind) :: typ) all set =
       scan typ (delete attr all) (<[attr := v]> set)) \/
  ((forall v, public attr = true -> all !! attr = Some v ->
      is_not_none v = true -> kind = Other) /\
   scan ((attr, kind) :: typ) all set = scan typ (delete attr all) set).
Proof.
  cbn [scan].
  destruct (public attr) eqn:Hpublic; [| right; right; split; [discriminate | reflexivity]].
  destruct (all !! attr) as [v |] eqn:Hv;
    [| right; right; split; [discriminate | reflexivity]].
  destruct (is_not_none v) eqn:Hnone.
  - destruct kind as [[|] |].
    + right; left. split; [reflexivity |]. split; [reflexivity |].
      exists v. split; [reflexivity |]. split; [exact Hnone | reflexivity].
    + left. split; [reflexivity |]. split; [reflexivity |].
      split; [| reflexivity]. exists v. split; [reflexivity | exact Hnone].
    + right; right. split; reflexivity.
  - right; right. split; [| reflexivity].
    intros v' _ Hv' Hnone'. injection Hv' as <-. congruence.
Qed.

(** Names that are not attributes of the type are left alone. *)
Lemma scan_frame (typ : list (string * attribute)) (all set all' set' : gmap string pyval)
    (k : string) :
  scan typ all set = Scanned all' set' -> k ∉ typ.*1 ->
  set' !! k = set !! k /\ all' !! k = all !! k.
Proof.
  revert all set. induction typ as [| [attr kind] typ IH]; intros all set Hscan Hk.
  - injection Hscan as <- <-. split; reflexivity.
  - cbn [fmap list_fmap fst] in Hk. apply not_elem_of_cons in Hk as [Hne Hk].
    destruct (scan_cons attr kind typ all set)
      as [(_ & _ & _ & Hret) | [(_ & _ & v & _ & _ & Hstep) | (_ & Hstep)]];
      rewrite Hscan in *; [discriminate Hret | |].
    + destruct (IH _ _ (eq_sym Hstep) Hk) as [Hset Hall].
      rewrite Hset, Hall, lookup_insert_ne, lookup_delete_ne by congruence.
      split; reflexivity.
    + destruct (IH _ _ (eq_sym Hstep) Hk) as [Hset Hall].
      rewrite Hset, Hall, lookup_delete_ne by congruence.
      split; reflexivity.
Qed.

(** Every attribute of the type is popped from [all_args], and nothing is
    added to it. *)
Lemma scan_pops (typ : list (string * attribute)) (all set all' set' : gmap string pyval)
    (k : string) (v : pyval) :
  scan typ all set = Scanned all' set' -> all' !! k = Some v ->
  (k ∉ typ.*1) /\ all !! k = Some v.
Proof.
  revert all set. induction typ as [| [attr kind] typ IH]; intros all set Hscan Hk.
  - injection Hscan as <- <-. split; [apply not_elem_of_nil | exact Hk].
  - assert (Hrest : exists set1, scan typ (delete attr all) set1 = Scanned all' set').
    { destruct (scan_cons attr kind typ all set)
        as [(_ & _ & _ & Hret) | [(_ & _ & w & _ & _ & Hstep) | (_ & Hstep)]];
        rewrite Hscan in *; [discriminate Hret | |]; eauto. }
    destruct Hrest as [set1 Hrest].
    destruct (IH _ _ Hrest Hk) as [Hnotin Hdel].
    apply lookup_delete_Some in Hdel as [Hne Hall].
    split; [| exact Hall].
    cbn [fmap list_fmap fst]. apply not_elem_of_cons. split; [congruence | exact Hnotin].
Qed.

(** What ends in [set_args] was there before or is a writable public
    property that was given a value. *)
Lemma scan_sound (typ : list (string * attribute)) (all set all' set' : gmap string pyval)
    (k : string) (v : pyval) :
  scan typ all set = Scanned all' set' -> set' !! k = Some v ->
  set !! k = Some v \/
  ((k, Property true) ∈ typ /\ public k = true /\ all !! k = Some v /\
   is_not_none v = true).
Proof.
  revert all set. induction typ as [| [attr kind] typ IH]; intros all set Hscan Hk.
  - injection Hscan as <- <-. left. exact Hk.
  - destruct (scan_cons attr kind typ all set)
      as [(_ & _ & _ & Hret) | [(Hpub & -> & w & Hw & Hnone & Hstep) | (_ & Hstep)]];
      rewrite Hscan in *; [discriminate Hret | |].
    + destruct (IH _ _ (eq_sym Hstep) Hk) as [Hset | (Hin & Hp & Hall & Hn)].
      * destruct (decide (attr = k)) as [-> | Hne].
        -- rewrite lookup_insert_eq in Hset. injection Hset as <-.
           right. split; [apply elem_of_cons; left; reflexivity |]. tauto.
        -- rewrite lookup_insert_ne in Hset by exact Hne. left. exact Hset.
      * apply lookup_delete_Some in Hall as [_ Hall].
        right. split; [apply elem_of_cons; right; exact Hin |]. tauto.
    + destruct (IH _ _ (eq_sym Hstep) Hk) as [Hset | (Hin & Hp & Hall & Hn)].
      * left. exact Hset.
      * apply lookup_delete_Some in Hall as [_ Hall].
        right. split; [apply elem_of_cons; right; exact Hin |]. tauto.
Qed.

(** With no name listed twice, every writable public property that was
    given a value ends in [set_args] with that value. *)
Lemma scan_complete (typ : list (string * attribute)) (all set all' set' : gmap string pyval)
    (k : string) (v : pyval) :
  NoDup typ.*1 ->
  scan typ all set = Scanned all' set' ->
  (k, Property true) ∈ typ -> public k = true -> all !! k = Some v ->
  is_not_none v = true -> set' !! k = Some v.
Proof.
  revert all set. induction typ as [| [attr kind] typ IH];
    intros all set Hnodup Hscan Hin Hpub Hall Hnone.
  - apply elem_of_nil in Hin. contradiction.
  - cbn [fmap list_fmap fst] in Hnodup. apply NoDup_cons in Hnodup as [Hfresh Hnodup].
    apply elem_of_cons in Hin as [Heq | Hin].
    + injection Heq as <- <-.
      destruct (scan_cons k (Property true) typ all set)
        as [(_ & Hkind & _) | [(_ & _ & w & Hw & _ & Hstep) | (Hother & _)]].
      * discriminate Hkind.
      * rewrite Hscan in Hstep. rewrite Hall in Hw. injection Hw as <-.
        destruct (scan_frame _ _ _ _ _ k (eq_sym Hstep) Hfresh) as [-> _].
        apply lookup_insert_eq.
      * discriminate (Hother v Hpub Hall Hnone).
    + assert (Hne : attr <> k).
      { intros ->. apply Hfresh. apply list_elem_of_fmap. exists (k, Property true).
        split; [reflexivity | exact Hin]. }
      assert (Hrest : exists set1, scan typ (delete attr all) set1 = Scanned all' set').
      { destruct (scan_cons attr kind typ all set)
          as [(_ & _ & _ & Hret) | [(_ & _ & w & _ & _ & Hstep) | (_ & Hstep)]];
          rewrite Hscan in *; [discriminate Hret | |]; eauto. }
      destruct Hrest as [set1 Hrest].
      apply (IH _ _ Hnodup Hrest Hin Hpub); [| exact Hnone].
      rewrite lookup_delete_ne by exact Hne. exact Hall.
Qed.

(** The loop returns only with code 10, on a read-only public property that
    was given a value. *)
Lemma scan_returned (typ : list (string * attribute)) (all set : gmap string pyval)
    (code : Z) :
  scan typ all set = Returned code ->
  code = 10 /\
  exists k v, (k, Property false) ∈ typ /\ public k = true /\
    all !! k = Some v /\ is_not_none v = true.
Proof.
  revert all set. induction typ as [| [attr kind] typ IH]; intros all set Hscan.
  - discriminate Hscan.
  - destruct (scan_cons attr kind typ all set)
      as [(Hpub & -> & (v & Hv & Hnone) & Hret)
         | [(_ & _ & w & _ & _ & Hstep) | (_ & Hstep)]].
    + rewrite Hscan in Hret. injection Hret as ->. split; [reflexivity |].
      exists attr, v. split; [apply elem_of_cons; left; reflexivity |]. tauto.
    + rewrite Hscan in Hstep.
      destruct (IH _ _ (eq_sym Hstep)) as (-> & k & v & Hin & Hp & Hall & Hn).
      apply lookup_delete_Some in Hall as [_ Hall].
      split; [reflexivity |]. exists k, v.
      split; [apply elem_of_cons; right; exact Hin |]. tauto.
    + rewrite Hscan in Hstep.
      destruct (IH _ _ (eq_sym Hstep)) as (-> & k & v & Hin & Hp & Hall & Hn).
      apply lookup_delete_Some in Hall as [_ Hall].
      split; [reflexivity |]. exists k, v.
      split; [apply elem_of_cons; right; exact Hin |]. tauto.
Qed.

(** With no name listed twice, a read-only public property that was given a
    value makes the loop return. *)
Lemma scan_read_only (typ : list (string * attribute)) (all set : gmap string pyval)
    (k : string) (v : pyval) :
  NoDup typ.*1 ->
  (k, Property false) ∈ typ -> public k = true -> all !! k = Some v ->
  is_not_none v = true -> scan typ all set = Returned 10.
Proof.
  revert all set. induction typ as [| [attr kind] typ IH];
    intros all set Hnodup Hin Hpub Hall Hnone.
  - apply elem_of_nil in Hin. contradiction.
  - cbn [fmap list_fmap fst] in Hnodup. apply NoDup_cons in Hnodup as [Hfresh Hnodup].
    apply elem_of_cons in Hin as [Heq | Hin].
    + injection Heq as <- <-.
      destruct (scan_cons k (Property false) typ all set)
        as [(_ & _ & _ & Hret) | [(_ & Hkind & _) | (Hother & _)]].
      * exact Hret.
      * discriminate Hkind.
      * discriminate (Hother v Hpub Hall Hnone).
    + assert (Hne : attr <> k).
      { intros ->. apply Hfresh. apply list_elem_of_fmap. exists (k, Property false).
        split; [reflexivity | exact Hin]. }
      assert (Hall' : delete attr all !! k = Some v)
        by (rewrite lookup_delete_ne by exact Hne; exact Hall).
      destruct (scan_cons attr kind typ all set)
        as [(_ & _ & _ & Hret) | [(_ & _ & w & _ & _ & Hstep) | (_ & Hstep)]].
      * exact Hret.
      * rewrite Hstep. apply (IH _ _ Hnodup Hin Hpub Hall' Hnone).
      * rewrite Hstep. apply (IH _ _ Hnodup Hin Hpub Hall' Hnone).
Qed.

(** ** Popping the common arguments, and what is left over *)

Lemma common_arguments_distinct : NoDup _COMMON_ARGUMENTS.
Proof.
  unfold _COMMON_ARGUMENTS.
  repeat (apply NoDup_cons_2;
          [rewrite ?not_elem_of_cons; repeat split;
           first [discriminate | apply not_elem_of_nil] |]).
  apply NoDup_nil_2.
Qed.

Lemma pop_common_run {T : Type} (keys : list string) (args : gmap string pyval)
    (calls : list (call T)) :
  NoDup keys -> (forall k, k ∈ keys -> is_Some (args !! k)) ->
  exists all_args,
    @pop_common T keys args calls = (Ok all_args, calls) /\
    (forall k, k ∈ keys -> all_args !! k = None) /\
    (forall k, k ∉ keys -> all_args !! k = args !! k).
Proof.
  revert args. induction keys as [| arg keys IH]; intros args Hnodup Hpresent.
  - exists args. split; [reflexivity |]. split.
    + intros k Hk. apply elem_of_nil in Hk. contradiction.
    + reflexivity.
  - apply NoDup_cons in Hnodup as [Hfresh Hnodup].
    destruct (Hpresent arg) as [v Hv]; [apply elem_of_cons; left; reflexivity |].
    destruct (IH (delete arg args) Hnodup) as (all_args & Hrun & Hgone & Hkept).
    { intros k Hk. rewrite lookup_delete_ne by (intros ->; contradiction).
      apply Hpresent. apply elem_of_cons. right. exact Hk. }
    exists all_args. cbn [pop_common]. rewrite Hv. split; [exact Hrun |]. split.
    + intros k Hk. apply elem_of_cons in Hk as [-> | Hk].
      * rewrite (Hkept arg Hfresh). apply lookup_delete_eq.
      * apply Hgone. exact Hk.
    + intros k Hk. apply not_elem_of_cons in Hk as [Hne Hk].
      rewrite (Hkept k Hk). apply lookup_delete_ne. congruence.
Qed.

Lemma unused_args_spec (all_args : gmap string pyval) :
  (0 < length (unused_args all_args))%nat <->
  exists k v, all_args !! k = Some v /\ is_not_none v = true.
Proof.
  unfold unused_args. rewrite length_fmap. split.
  - intros Hlen.
    destruct (filter (fun kv => is_not_none kv.2 = true) (map_to_list all_args))
      as [| [k v] rest] eqn:Hfilter; [cbn in Hlen; lia |].
    assert (Hin : (k, v) ∈ filter (fun kv => is_not_none kv.2 = true)
                            (map_to_list all_args))
      by (rewrite Hfilter; apply elem_of_cons; left; reflexivity).
    apply list_elem_of_filter in Hin as [Hnone Hin].
    apply elem_of_map_to_list in Hin. exists k, v. split; assumption.
  - intros (k & v & Hk & Hnone).
    assert (Hin : (k, v) ∈ filter (fun kv => is_not_none kv.2 = true)
                            (map_to_list all_args)).
    { apply list_elem_of_filter. split; [exact Hnone |].
      apply elem_of_map_to_list. exact Hk. }
    destruct (filter (fun kv => is_not_none kv.2 = true) (map_to_list all_args));
      [apply elem_of_nil in Hin; contradiction | cbn; lia].
Qed.

End CliFacts.

(** Facts about a literal list. *)
Ltac listed :=
  repeat first [ apply elem_of_cons; left; reflexivity | apply elem_of_cons; right ].

Ltac not_listed :=
  rewrite ?not_elem_of_cons; repeat split; first [discriminate | apply not_elem_of_nil].

Ltac none_listed H :=
  rewrite ?elem_of_cons, elem_of_nil in H;
  repeat (destruct H as [H | H]; [discriminate H |]); destruct H.

Section SetCommandLine.
Import Cli.
Local Open Scope string_scope.
Local Open Scope list_scope.
Variable LanDevice : Type.
Variable state_type : LanDevice -> list (string * attribute).
Variable connect_to_cloud : pyval -> pyval -> pyval -> pyval -> pyval.
Variable appliance_state : appliance_state_kwargs -> option LanDevice.

Ltac common_argument :=
  unfold _COMMON_ARGUMENTS;
  repeat (apply elem_of_cons; first [left; reflexivity | right]).

Lemma cloud_is_common : "cloud" ∈ _COMMON_ARGUMENTS.
Proof. common_argument. Qed.

Lemma credentials_is_common : "credentials" ∈ _COMMON_ARGUMENTS.
Proof. common_argument. Qed.

(** [_process_attr_arguments] once the common arguments are popped: the
    loop decides. *)
Lemma process_attr_arguments_run (args : Namespace) (appliance : LanDevice)
    (cloud show_credentials : pyval) (calls : list (call LanDevice)) :
  complete args -> args !! "credentials" = Some show_credentials ->
  exists all_args,
    (forall k, k ∈ _COMMON_ARGUMENTS -> all_args !! k = None) /\
    (forall k, k ∉ _COMMON_ARGUMENTS -> all_args !! k = args !! k) /\
    _process_attr_arguments LanDevice state_type args appliance cloud calls =
      match scan (state_type appliance) all_args ∅ with
      | Returned code => (Ok code, calls)
      | Scanned all' set' =>
          if decide (0 < length (unused_args all'))%nat then (Ok 11, calls)
          else (Ok 0, calls ++
                  [SetState LanDevice appliance
                     (if truthy cloud then <["cloud" := cloud]> set' else set');
                   Output LanDevice appliance show_credentials])
      end.
Proof.
  intros Hcomplete Hcr.
  destruct (pop_common_run _COMMON_ARGUMENTS args calls common_arguments_distinct
              Hcomplete) as (all_args & Hpop & Hgone & Hkept).
  exists all_args. split; [exact Hgone |]. split; [exact Hkept |].
  unfold _process_attr_arguments, mbind at 1, ST_bind at 1. rewrite Hpop.
  destruct (scan (state_type appliance) all_args ∅) as [code | all' set'];
    [reflexivity |].
  destruct (decide (0 < length (unused_args all'))%nat); [reflexivity |].
  unfold mbind, ST_bind, record, attr. rewrite Hcr. cbn.
  rewrite <- app_assoc. reflexivity.
Qed.

(** X11: [_process_attr_arguments] has three outcomes, told apart by the
    options given on the command line (those with a value, the common
    arguments aside).  It returns 10 when a read-only public property of the
    state type was given a value, else 11 when an option that is no attribute
    of the type was given one, and in both cases calls nothing.  Otherwise it
    returns 0 after one call of set_state and one of _output, and set_state
    receives exactly the writable public properties that were given a value,
    each with that value, plus the cloud under "cloud" when there is one.
    Values for private names, for "name" and for attributes that are no
    properties are dropped without an error. *)
Theorem X11_process_attr_arguments (args : Namespace) (appliance : LanDevice)
    (cloud : pyval) (calls : list (call LanDevice)) :
  complete args -> NoDup (state_type appliance).*1 ->
  (read_only_given (state_type appliance) args /\
   _process_attr_arguments LanDevice state_type args appliance cloud calls =
     (Ok 10, calls)) \/
  (~ read_only_given (state_type appliance) args /\
   unknown_given (state_type appliance) args /\
   _process_attr_arguments LanDevice state_type args appliance cloud calls =
     (Ok 11, calls)) \/
  (~ read_only_given (state_type appliance) args /\
   ~ unknown_given (state_type appliance) args /\
   exists set_args show_credentials,
     args !! "credentials" = Some show_credentials /\
     _process_attr_arguments LanDevice state_type args appliance cloud calls =
       (Ok 0, calls ++ [SetState LanDevice appliance set_args;
                        Output LanDevice appliance show_credentials]) /\
     forall k v, set_args !! k = Some v <->
       (k = "cloud" /\ v = cloud /\ truthy cloud = true) \/
       settable_given (state_type appliance) args k v).
Proof.
  clear connect_to_cloud appliance_state.
  intros Hcomplete Hnodup.
  destruct (Hcomplete "credentials" credentials_is_common) as [cr Hcr].
  destruct (process_attr_arguments_run args appliance cloud cr calls Hcomplete Hcr)
    as (all_args & Hgone & Hkept & Hrun).
  assert (Hgiven : forall k v, all_args !! k = Some v -> is_not_none v = true ->
                               given args k v).
  { intros k v Hk Hnone.
    destruct (decide (k ∈ _COMMON_ARGUMENTS)) as [Hin | Hout].
    - rewrite (Hgone k Hin) in Hk. discriminate Hk.
    - split; [exact Hout |]. rewrite <- (Hkept k Hout). split; assumption. }
  assert (Hleft : forall k v, given args k v -> all_args !! k = Some v).
  { intros k v (Hout & Hk & _). rewrite (Hkept k Hout). exact Hk. }
  rewrite Hrun. clear Hrun.
  destruct (scan (state_type appliance) all_args ∅) as [code | all' set'] eqn:Hscan.
  { left. destruct (scan_returned _ _ _ _ Hscan) as (-> & k & v & Hin & Hpub & Hk & Hnone).
    split; [| reflexivity]. exists k, v. split; [apply Hgiven; assumption |]. tauto. }
  right.
  assert (Hnoro : ~ read_only_given (state_type appliance) args).
  { intros (k & v & Hg & Hpub & Hin).
    pose proof (scan_read_only _ all_args ∅ k v Hnodup Hin Hpub (Hleft _ _ Hg)
                  (proj2 (proj2 Hg))) as Hret.
    rewrite Hscan in Hret. discriminate Hret. }
  destruct (decide (0 < length (unused_args all'))%nat) as [Hunused | Hunused].
  { left. split; [exact Hnoro |]. split; [| reflexivity].
    apply unused_args_spec in Hunused as (k & v & Hk & Hnone).
    destruct (scan_pops _ _ _ _ _ k v Hscan Hk) as [Hnotin Hall].
    exists k, v. split; [apply Hgiven; assumption | exact Hnotin]. }
  right. split; [exact Hnoro |].
  assert (Hnounknown : ~ unknown_given (state_type appliance) args).
  { intros (k & v & Hg & Hnotin). apply Hunused. apply unused_args_spec.
    exists k, v. split; [| exact (proj2 (proj2 Hg))].
    destruct (scan_frame _ _ _ _ _ k Hscan Hnotin) as [_ ->]. apply Hleft. exact Hg. }
  split; [exact Hnounknown |].
  eexists _, cr. split; [exact Hcr |].
  split; [reflexivity |].
  assert (Hset : forall k v, set' !! k = Some v <->
                             settable_given (state_type appliance) args k v).
  { intros k v. split.
    - intros Hk. destruct (scan_sound _ _ _ _ _ k v Hscan Hk)
        as [Hempty | (Hin & Hpub & Hall & Hnone)];
        [rewrite lookup_empty in Hempty; discriminate Hempty |].
      split; [apply Hgiven; assumption |]. tauto.
    - intros (Hg & Hpub & Hin).
      apply (scan_complete _ all_args ∅ all' set' k v Hnodup Hscan Hin Hpub
               (Hleft _ _ Hg) (proj2 (proj2 Hg))). }
  intros k v. destruct (truthy cloud) eqn:Hcloud.
  - destruct (decide (k = "cloud")) as [-> | Hne].
    + rewrite lookup_insert_eq. split.
      * intros H. injection H as <-. left. tauto.
      * intros [(_ & -> & _) | ((Hout & _) & _)]; [reflexivity |].
        destruct (Hout cloud_is_common).
    + rewrite lookup_insert_ne by congruence. rewrite Hset. split.
      * intros H. right. exact H.
      * intros [(-> & _) | H]; [contradiction | exact H].
  - rewrite Hset. split.
    + intros H. right. exact H.
    + intros [(_ & _ & H) | H]; [discriminate H | exact H].
Qed.

(** ** The status and set commands *)

(** The two ways in which the commands look the appliance up. *)
Lemma state_with_token_run (args : Namespace) (ip token key id : pyval)
    (calls : list (call LanDevice)) :
  args !! "ip" = Some ip -> args !! "token" = Some token ->
  args !! "key" = Some key -> args !! "id" = Some id ->
  state_with_token LanDevice appliance_state args calls =
    (Ok (appliance_state (Kwargs ip (Some token) (Some key) None None id)),
     calls ++ [ApplianceState LanDevice (Kwargs ip (Some token) (Some key) None None id)]).
Proof.
  intros Hip Htoken Hkey Hid.
  unfold state_with_token, mbind, ST_bind, attr, record.
  rewrite Hip, Htoken, Hkey, Hid. reflexivity.
Qed.

Lemma state_through_cloud_run (args : Namespace)
    (ip id account password appkey appid use_cloud : pyval)
    (calls : list (call LanDevice)) :
  args !! "ip" = Some ip -> args !! "id" = Some id ->
  args !! "account" = Some account -> args !! "password" = Some password ->
  args !! "appkey" = Some appkey -> args !! "appid" = Some appid ->
  args !! "cloud" = Some use_cloud ->
  let cloud := connect_to_cloud account password appkey appid in
  let kwargs := Kwargs ip None None (Some cloud) (Some use_cloud) id in
  state_through_cloud LanDevice connect_to_cloud appliance_state args calls =
    (Ok (cloud, appliance_state kwargs),
     calls ++ [ConnectToCloud LanDevice account password appkey appid;
               ApplianceState LanDevice kwargs]).
Proof.
  intros Hip Hid Haccount Hpassword Happkey Happid Hcloud.
  unfold state_through_cloud, mbind, ST_bind, attr, record.
  rewrite Haccount, Hpassword, Happkey, Happid. cbn.
  rewrite Hip, Hcloud, Hid. cbn. rewrite <- app_assoc. reflexivity.
Qed.

Lemma check_ip_id_run (args : Namespace) (ip id : pyval)
    (calls : list (call LanDevice)) :
  args !! "ip" = Some ip -> args !! "id" = Some id ->
  _check_ip_id LanDevice args calls = (Ok (xorb (truthy ip) (truthy id)), calls).
Proof.
  intros Hip Hid.
  unfold _check_ip_id, attr_and, attr_neither, mbind, ST_bind, attr.
  rewrite Hip. cbn. destruct (truthy ip); cbn; rewrite ?Hid; cbn;
    rewrite ?Hip; cbn; destruct (truthy id); reflexivity.
Qed.

(** The attributes the two commands read before they look the appliance
    up. *)
Lemma complete_attributes (args : Namespace) :
  complete args ->
  exists ip id token key account password appkey appid use_cloud show_credentials,
    args !! "ip" = Some ip /\ args !! "id" = Some id /\
    args !! "token" = Some token /\ args !! "key" = Some key /\
    args !! "account" = Some account /\ args !! "password" = Some password /\
    args !! "appkey" = Some appkey /\ args !! "appid" = Some appid /\
    args !! "cloud" = Some use_cloud /\
    args !! "credentials" = Some show_credentials.
Proof.
  clear LanDevice state_type connect_to_cloud appliance_state.
  intros Hcomplete.
  assert (Hattr : forall k, k ∈ _COMMON_ARGUMENTS -> exists v, args !! k = Some v)
    by (intros k Hk; exact (Hcomplete k Hk)).
  destruct (Hattr "ip") as [ip Hip]; [common_argument |].
  destruct (Hattr "id") as [id Hid]; [common_argument |].
  destruct (Hattr "token") as [token Htoken]; [common_argument |].
  destruct (Hattr "key") as [key Hkey]; [common_argument |].
  destruct (Hattr "account") as [account Haccount]; [common_argument |].
  destruct (Hattr "password") as [password Hpassword]; [common_argument |].
  destruct (Hattr "appkey") as [appkey Happkey]; [common_argument |].
  destruct (Hattr "appid") as [appid Happid]; [common_argument |].
  destruct (Hattr "cloud") as [use_cloud Hcloud]; [apply cloud_is_common |].
  destruct (Hattr "credentials") as [cr Hcr]; [apply credentials_is_common |].
  exists ip, id, token, key, account, password, appkey, appid, use_cloud, cr.
  tauto.
Qed.

Lemma attr_run (args : Namespace) (name : string) (v : pyval)
    (calls : list (call LanDevice)) :
  args !! name = Some v -> attr LanDevice args name calls = (Ok v, calls).
Proof. intros H. unfold attr. rewrite H. reflexivity. Qed.

Lemma attr_and_run (args : Namespace) (a b : string) (x y : pyval)
    (calls : list (call LanDevice)) :
  args !! a = Some x -> args !! b = Some y ->
  attr_and LanDevice args a b calls = (Ok (truthy x && truthy y), calls).
Proof.
  intros Ha Hb. unfold attr_and, mbind, ST_bind.
  rewrite (attr_run args a x calls Ha).
  destruct (truthy x); [| reflexivity].
  rewrite (attr_run args b y calls Hb). reflexivity.
Qed.

(** The status command as a decision table. *)
Lemma run_status_table (args : Namespace)
    (ip id token key account password appkey appid use_cloud show_credentials : pyval) :
  args !! "ip" = Some ip -> args !! "id" = Some id ->
  args !! "token" = Some token -> args !! "key" = Some key ->
  args !! "account" = Some account -> args !! "password" = Some password ->
  args !! "appkey" = Some appkey -> args !! "appid" = Some appid ->
  args !! "cloud" = Some use_cloud ->
  args !! "credentials" = Some show_credentials ->
  let with_token := Kwargs ip (Some token) (Some key) None None id in
  let cloud := connect_to_cloud account password appkey appid in
  let through_cloud := Kwargs ip None None (Some cloud) (Some use_cloud) id in
  _run_status_command LanDevice connect_to_cloud appliance_state args [] =
    if negb (xorb (truthy ip) (truthy id)) then (Ok 7, [])
    else if truthy token then
      match appliance_state with_token with
      | Some appliance =>
          (Ok 0, [ApplianceState LanDevice with_token;
                  Output LanDevice appliance show_credentials])
      | None => (Ok 9, [ApplianceState LanDevice with_token])
      end
    else if truthy account && truthy password then
      match appliance_state through_cloud with
      | Some appliance =>
          (Ok 0, [ConnectToCloud LanDevice account password appkey appid;
                  ApplianceState LanDevice through_cloud;
                  Output LanDevice appliance show_credentials])
      | None =>
          (Ok 9, [ConnectToCloud LanDevice account password appkey appid;
                  ApplianceState LanDevice through_cloud])
      end
    else (Ok 8, []).
Proof.
  intros Hip Hid Htoken Hkey Haccount Hpassword Happkey Happid Hcloud Hcr.
  intros with_token cloud through_cloud.
  unfold _run_status_command, mbind, ST_bind.
  rewrite (check_ip_id_run args ip id [] Hip Hid).
  destruct (xorb (truthy ip) (truthy id)); cbn [negb]; [| reflexivity].
  rewrite (attr_run args "token" token [] Htoken).
  destruct (truthy token); cbn [negb].
  - rewrite (state_with_token_run args ip token key id [] Hip Htoken Hkey Hid).
    cbn [mret ST_ret app]. fold with_token.
    destruct (appliance_state with_token); [| reflexivity].
    rewrite (attr_run args "credentials" show_credentials _ Hcr). reflexivity.
  - rewrite (attr_and_run args "account" "password" account password [] Haccount Hpassword).
    destruct (truthy account && truthy password); [| reflexivity].
    rewrite (state_through_cloud_run args ip id account password appkey appid
               use_cloud [] Hip Hid Haccount Hpassword Happkey Happid Hcloud).
    cbn [mret ST_ret app snd]. fold cloud. fold through_cloud.
    destruct (appliance_state through_cloud); [| reflexivity].
    rewrite (attr_run args "credentials" show_credentials _ Hcr). reflexivity.
Qed.

Ltac table_case :=
  repeat match goal with
         | |- _ /\ _ => split
         | |- _ <-> _ => split
         | |- _ -> _ => intro
         | |- forall _, _ => intro
         end;
  try match goal with
      | H : _ \/ _ |- _ => destruct H; discriminate
      end;
  try match goal with
      | H : exists a c, _ ∈ _ |- _ => destruct H as (? & ? & H); none_listed H
      end;
  first [ assumption | reflexivity | congruence | not_listed
        | eexists _, _; listed
        | left; reflexivity | right; left; reflexivity
        | right; right; left; reflexivity | right; right; right; reflexivity ].

(** X12: the status command, on a namespace that has all its attributes.
    It returns 7 exactly when --ip and --id are both given or both missing,
    and then, as when it returns 8 (no token and not both account and
    password), it calls nothing at all.  With a token it never connects to
    the cloud.  It prints the appliance exactly when it returns 0, and its
    only other exit code is 9. *)
Theorem X12_run_status_command (args : Namespace) :
  complete args ->
  exists ip id token code calls,
    args !! "ip" = Some ip /\ args !! "id" = Some id /\
    args !! "token" = Some token /\
    _run_status_command LanDevice connect_to_cloud appliance_state args [] =
      (Ok code, calls) /\
    (code = 7 <-> truthy ip = truthy id) /\
    (code = 7 \/ code = 8 -> calls = []) /\
    (truthy token = true ->
       forall account password appkey appid,
         ConnectToCloud LanDevice account password appkey appid ∉ calls) /\
    (code = 0 <-> exists appliance show_credentials,
                    Output LanDevice appliance show_credentials ∈ calls) /\
    (code = 0 \/ code = 7 \/ code = 8 \/ code = 9).
Proof.
  intros Hcomplete.
  destruct (complete_attributes args Hcomplete)
    as (ip & id & token & key & account & password & appkey & appid & use_cloud
        & cr & Hip & Hid & Htoken & Hkey & Haccount & Hpassword & Happkey
        & Happid & Hcloud & Hcr).
  exists ip, id, token.
  rewrite (run_status_table args ip id token key account password appkey appid
             use_cloud cr Hip Hid Htoken Hkey Haccount Hpassword Happkey Happid
             Hcloud Hcr).
  cbv zeta.
  assert (Hlooked_up :
    truthy ip <> truthy id ->
    exists code calls,
      (if truthy token
       then
         match appliance_state (Kwargs ip (Some token) (Some key) None None id) with
         | Some appliance =>
             (@Ok cli_exn Z 0, [ApplianceState LanDevice (Kwargs ip (Some token) (Some key) None None id);
                     Output LanDevice appliance cr])
         | None =>
             (@Ok cli_exn Z 9, [ApplianceState LanDevice (Kwargs ip (Some token) (Some key) None None id)])
         end
       else if truthy account && truthy password
       then
         match appliance_state
                 (Kwargs ip None None
                    (Some (connect_to_cloud account password appkey appid))
                    (Some use_cloud) id) with
         | Some appliance =>
             (@Ok cli_exn Z 0, [ConnectToCloud LanDevice account password appkey appid;
                     ApplianceState LanDevice
                       (Kwargs ip None None
                          (Some (connect_to_cloud account password appkey appid))
                          (Some use_cloud) id);
                     Output LanDevice appliance cr])
         | None =>
             (@Ok cli_exn Z 9, [ConnectToCloud LanDevice account password appkey appid;
                     ApplianceState LanDevice
                       (Kwargs ip None None
                          (Some (connect_to_cloud account password appkey appid))
                          (Some use_cloud) id)])
         end
       else (@Ok cli_exn Z 8, [])) = (Ok code, calls) /\
      (code = 7 <-> truthy ip = truthy id) /\
      (code = 7 \/ code = 8 -> calls = []) /\
      (truthy token = true ->
         forall account password appkey appid,
           ConnectToCloud LanDevice account password appkey appid ∉ calls) /\
      (code = 0 <-> exists appliance show_credentials,
                      Output LanDevice appliance show_credentials ∈ calls) /\
      (code = 0 \/ code = 7 \/ code = 8 \/ code = 9)).
  { intros Hone. destruct (truthy token) eqn:Etoken.
    - destruct (appliance_state _) as [appliance |].
      + eexists 0, _. split; [reflexivity |]. table_case.
      + eexists 9, _. split; [reflexivity |]. table_case.
    - destruct (truthy account && truthy password).
      + destruct (appliance_state _) as [appliance |].
        * eexists 0, _. split; [reflexivity |]. table_case.
        * eexists 9, _. split; [reflexivity |]. table_case.
      + exists 8, []. split; [reflexivity |]. table_case. }
  destruct (truthy ip) eqn:Eip, (truthy id) eqn:Eid; cbn [xorb negb].
  - exists 7, []. table_case.
  - destruct (Hlooked_up ltac:(discriminate)) as (code & calls & Hrun & Hrest).
    exists code, calls. rewrite Hrun. tauto.
  - destruct (Hlooked_up ltac:(discriminate)) as (code & calls & Hrun & Hrest).
    exists code, calls. rewrite Hrun. tauto.
  - exists 7, []. table_case.
Qed.

(** The set command as a decision table, up to the call of
    [_process_attr_arguments]. *)
Lemma run_set_table (args : Namespace)
    (ip id token key account password appkey appid use_cloud : pyval) :
  args !! "ip" = Some ip -> args !! "id" = Some id ->
  args !! "token" = Some token -> args !! "key" = Some key ->
  args !! "account" = Some account -> args !! "password" = Some password ->
  args !! "appkey" = Some appkey -> args !! "appid" = Some appid ->
  args !! "cloud" = Some use_cloud ->
  let with_token := Kwargs ip (Some token) (Some key) None None id in
  let cloud := connect_to_cloud account password appkey appid in
  let through_cloud := Kwargs ip None None (Some cloud) (Some use_cloud) id in
  _run_set_command LanDevice state_type connect_to_cloud appliance_state args [] =
    if negb (xorb (truthy ip) (truthy id)) then (Ok 7, [])
    else if truthy token then
      match appliance_state with_token with
      | Some appliance =>
          _process_attr_arguments LanDevice state_type args appliance PyNone
            [ApplianceState LanDevice with_token]
      | None => (Ok 9, [ApplianceState LanDevice with_token])
      end
    else if truthy account && truthy password then
      match appliance_state through_cloud with
      | Some appliance =>
          _process_attr_arguments LanDevice state_type args appliance cloud
            [ConnectToCloud LanDevice account password appkey appid;
             ApplianceState LanDevice through_cloud]
      | None =>
          (Ok 9, [ConnectToCloud LanDevice account password appkey appid;
                  ApplianceState LanDevice through_cloud])
      end
    else (Ok 8, []).
Proof.
  intros Hip Hid Htoken Hkey Haccount Hpassword Happkey Happid Hcloud.
  intros with_token cloud through_cloud.
  unfold _run_set_command, mbind, ST_bind.
  rewrite (check_ip_id_run args ip id [] Hip Hid).
  destruct (xorb (truthy ip) (truthy id)); cbn [negb]; [| reflexivity].
  rewrite (attr_run args "token" token [] Htoken).
  destruct (truthy token); cbn [negb].
  - rewrite (state_with_token_run args ip token key id [] Hip Htoken Hkey Hid).
    cbn [mret ST_ret app]. fold with_token.
    destruct (appliance_state with_token); reflexivity.
  - rewrite (attr_and_run args "account" "password" account password [] Haccount Hpassword).
    destruct (truthy account && truthy password); [| reflexivity].
    rewrite (state_through_cloud_run args ip id account password appkey appid
               use_cloud [] Hip Hid Haccount Hpassword Happkey Happid Hcloud).
    cbn [mret ST_ret app]. fold cloud. fold through_cloud.
    destruct (appliance_state through_cloud); reflexivity.
Qed.

(** What [_process_attr_arguments] adds to the calls made before it: nothing
    unless it returns 0, and then one set_state, with nothing but the cloud
    and writable public properties that were given a value, and one
    _output. *)
Lemma process_attr_arguments_calls (args : Namespace) (appliance : LanDevice)
    (cloud : pyval) (calls : list (call LanDevice)) :
  complete args ->
  exists code calls',
    _process_attr_arguments LanDevice state_type args appliance cloud calls =
      (Ok code, calls') /\
    (code <> 0 -> calls' = calls) /\
    (code = 0 -> exists set_args show_credentials,
       calls' = calls ++ [SetState LanDevice appliance set_args;
                          Output LanDevice appliance show_credentials] /\
       (truthy cloud = false -> set_args !! "cloud" = None) /\
       forall k v, set_args !! k = Some v ->
         k = "cloud" \/ settable_given (state_type appliance) args k v).
Proof.
  intros Hcomplete.
  destruct (Hcomplete "credentials" credentials_is_common) as [cr Hcr].
  destruct (process_attr_arguments_run args appliance cloud cr calls Hcomplete Hcr)
    as (all_args & Hgone & Hkept & Hrun).
  rewrite Hrun. clear Hrun.
  destruct (scan (state_type appliance) all_args ∅) as [code | all' set'] eqn:Hscan.
  { destruct (scan_returned _ _ _ _ Hscan) as [-> _].
    exists 10, calls. split; [reflexivity |]. split; [reflexivity | discriminate]. }
  destruct (decide (0 < length (unused_args all'))%nat).
  { exists 11, calls. split; [reflexivity |]. split; [reflexivity | discriminate]. }
  eexists 0, _. split; [reflexivity |]. split; [intros H; destruct (H eq_refl) |].
  intros _. eexists _, cr. split; [reflexivity |].
  assert (Hset : forall k v, set' !! k = Some v ->
                             settable_given (state_type appliance) args k v).
  { intros k v Hk.
    destruct (scan_sound _ _ _ _ _ k v Hscan Hk)
      as [Hempty | (Hin & Hpub & Hall & Hnone)];
      [rewrite lookup_empty in Hempty; discriminate Hempty |].
    destruct (decide (k ∈ _COMMON_ARGUMENTS)) as [Hcommon | Hout].
    - rewrite (Hgone k Hcommon) in Hall. discriminate Hall.
    - rewrite (Hkept k Hout) in Hall. repeat split; assumption. }
  split.
  - intros ->. destruct (set' !! "cloud") as [v |] eqn:Hv; [| reflexivity].
    destruct (Hset _ _ Hv) as ((Hout & _) & _). destruct (Hout cloud_is_common).
  - intros k v Hk. destruct (decide (k = "cloud")) as [-> | Hne]; [left; reflexivity |].
    right. apply Hset. destruct (truthy cloud); [| exact Hk].
    rewrite lookup_insert_ne in Hk by congruence. exact Hk.
Qed.

(** X13: the set command, on a namespace that has all its attributes,
    changes the appliance only when it exits with 0.  With any other exit
    code (7, 8, 9, 10 or 11) set_state is not called.  With exit code 0 the
    calls end with the lookup of the appliance, one set_state on the
    appliance that lookup returned and one _output, preceded by at most the
    connection to the cloud; set_state receives nothing but the cloud and
    writable public properties of the state type that were given a value,
    and no cloud when a token was given. *)
Theorem X13_run_set_command (args : Namespace) :
  complete args ->
  exists token code calls,
    args !! "token" = Some token /\
    _run_set_command LanDevice state_type connect_to_cloud appliance_state args [] =
      (Ok code, calls) /\
    (code <> 0 -> forall appliance set_args,
                    SetState LanDevice appliance set_args ∉ calls) /\
    (code = 0 -> exists before kwargs appliance set_args show_credentials,
       calls = before ++ [ApplianceState LanDevice kwargs;
                          SetState LanDevice appliance set_args;
                          Output LanDevice appliance show_credentials] /\
       appliance_state kwargs = Some appliance /\
       (before = [] \/
        exists account password appkey appid,
          before = [ConnectToCloud LanDevice account password appkey appid]) /\
       (truthy token = true -> before = [] /\ set_args !! "cloud" = None) /\
       forall k v, set_args !! k = Some v ->
         k = "cloud" \/ settable_given (state_type appliance) args k v).
Proof.
  intros Hcomplete.
  destruct (complete_attributes args Hcomplete)
    as (ip & id & token & key & account & password & appkey & appid & use_cloud
        & cr & Hip & Hid & Htoken & Hkey & Haccount & Hpassword & Happkey
        & Happid & Hcloud & Hcr).
  exists token.
  rewrite (run_set_table args ip id token key account password appkey appid
             use_cloud Hip Hid Htoken Hkey Haccount Hpassword Happkey Happid Hcloud).
  cbv zeta.
  destruct (negb (xorb (truthy ip) (truthy id))).
  { exists 7, []. split; [exact Htoken |]. split; [reflexivity |].
    split; [intros _ a sa; apply not_elem_of_nil | discriminate]. }
  destruct (truthy token) eqn:Etoken.
  - destruct (appliance_state _) as [appliance |] eqn:Hfound.
    + destruct (process_attr_arguments_calls args appliance PyNone
                  [ApplianceState LanDevice (Kwargs ip (Some token) (Some key) None None id)]
                  Hcomplete) as (code & calls & Hrun & Hother & Hzero).
      exists code, calls. split; [exact Htoken |]. split; [exact Hrun |]. split.
      * intros Hcode a sa. rewrite (Hother Hcode). not_listed.
      * intros Hcode. destruct (Hzero Hcode) as (set_args & show & -> & Hnocloud & Hsound).
        eexists [], _, appliance, set_args, show.
        split; [reflexivity |]. split; [exact Hfound |]. split; [left; reflexivity |].
        split; [| exact Hsound].
        intros _. split; [reflexivity | apply Hnocloud; reflexivity].
    + eexists 9, _. split; [exact Htoken |]. split; [reflexivity |].
      split; [intros _ a sa; not_listed | discriminate].
  - destruct (truthy account && truthy password).
    + destruct (appliance_state _) as [appliance |] eqn:Hfound.
      * destruct (process_attr_arguments_calls args appliance
                    (connect_to_cloud account password appkey appid)
                    [ConnectToCloud LanDevice account password appkey appid;
                     ApplianceState LanDevice
                       (Kwargs ip None None
                          (Some (connect_to_cloud account password appkey appid))
                          (Some use_cloud) id)]
                    Hcomplete) as (code & calls & Hrun & Hother & Hzero).
        exists code, calls. split; [exact Htoken |]. split; [exact Hrun |]. split.
        -- intros Hcode a sa. rewrite (Hother Hcode). not_listed.
        -- intros Hcode.
           destruct (Hzero Hcode) as (set_args & show & -> & Hnocloud & Hsound).
           eexists [ConnectToCloud LanDevice account password appkey appid], _,
             appliance, set_args, show.
           split; [reflexivity |]. split; [exact Hfound |].
           split; [right; eexists _, _, _, _; reflexivity |].
           split; [discriminate | exact Hsound].
      * eexists 9, _. split; [exact Htoken |]. split; [reflexivity |].
        split; [intros _ a sa; not_listed | discriminate].
    + exists 8, []. split; [exact Htoken |]. split; [reflexivity |].
      split; [intros _ a sa; apply not_elem_of_nil | discriminate].
Qed.

End SetCommandLine.

(** ** The command line on an example *)

Lemma example_args_complete (fan_speed mode tank_full : Cli.pyval) :
  complete (example_args fan_speed mode tank_full).
Proof.
  intros k Hk. unfold Cli._COMMON_ARGUMENTS in Hk.
  rewrite !elem_of_cons, elem_of_nil in Hk.
  repeat (destruct Hk as [-> | Hk]; [eexists; vm_compute; reflexivity |]).
  destruct Hk.
Qed.

Lemma example_state_type_distinct : NoDup example_state_type.*1.
Proof.
  cbn. repeat (apply NoDup_cons_2; [not_listed |]). apply NoDup_nil_2.
Qed.

(** X11 on the example, with a value for the read-only tank_full: exit code
    10 and no call. *)
Lemma X11_process_attr_arguments_witness :
  complete (example_args (Cli.PyStr "60") Cli.PyNone (Cli.PyStr "1")) /\
  NoDup example_state_type.*1 /\
  Cli._process_attr_arguments unit (fun _ => example_state_type)
    (example_args (Cli.PyStr "60") Cli.PyNone (Cli.PyStr "1")) tt Cli.PyNone [] =
    (Ok 10, []).
Proof.
  split; [apply example_args_complete |].
  split; [apply example_state_type_distinct |].
  assert (Hgiven : read_only_given example_state_type
                     (example_args (Cli.PyStr "60") Cli.PyNone (Cli.PyStr "1"))).
  { exists "tank_full"%string, (Cli.PyStr "1").
    split; [| split; [reflexivity | unfold example_state_type; listed]].
    split; [unfold Cli._COMMON_ARGUMENTS; not_listed |].
    split; [vm_compute; reflexivity | reflexivity]. }
  destruct (X11_process_attr_arguments unit (fun _ => example_state_type)
              (example_args (Cli.PyStr "60") Cli.PyNone (Cli.PyStr "1")) tt Cli.PyNone []
              (example_args_complete _ _ _) example_state_type_distinct)
    as [[_ Hrun] | [[Hno _] | [Hno _]]].
  - exact Hrun.
  - destruct (Hno Hgiven).
  - destruct (Hno Hgiven).
Defined.

(** X12 on the example, which carries a token: the status command never
    connects to the cloud. *)
Lemma X12_run_status_command_witness :
  complete (example_args Cli.PyNone Cli.PyNone Cli.PyNone) /\
  exists code calls,
    Cli._run_status_command unit (fun _ _ _ _ => Cli.PyObj 0) (fun _ => Some tt)
      (example_args Cli.PyNone Cli.PyNone Cli.PyNone) [] = (Ok code, calls) /\
    forall account password appkey appid,
      Cli.ConnectToCloud unit account password appkey appid ∉ calls.
Proof.
  split; [apply example_args_complete |].
  destruct (X12_run_status_command unit (fun _ _ _ _ => Cli.PyObj 0) (fun _ => Some tt)
              (example_args Cli.PyNone Cli.PyNone Cli.PyNone)
              (example_args_complete _ _ _))
    as (ip & id & token & code & calls & _ & _ & Htoken & Hrun & _ & _ & Hnever & _).
  exists code, calls. split; [exact Hrun |].
  apply Hnever. vm_compute in Htoken. injection Htoken as <-. reflexivity.
Defined.

(** X13 on the example with a value for the writable mode: whatever
    the exit code, set_state is called only with exit code 0. *)
Lemma X13_run_set_command_witness :
  complete (example_args Cli.PyNone (Cli.PyStr "3") Cli.PyNone) /\
  exists code calls,
    Cli._run_set_command unit (fun _ => example_state_type)
      (fun _ _ _ _ => Cli.PyObj 0) (fun _ => Some tt)
      (example_args Cli.PyNone (Cli.PyStr "3") Cli.PyNone) [] = (Ok code, calls) /\
    (code <> 0 -> forall appliance set_args,
                    Cli.SetState unit appliance set_args ∉ calls).
Proof.
  split; [apply example_args_complete |].
  destruct (X13_run_set_command unit (fun _ => example_state_type)
              (fun _ _ _ _ => Cli.PyObj 0) (fun _ => Some tt)
              (example_args Cli.PyNone (Cli.PyStr "3") Cli.PyNone)
              (example_args_complete _ _ _))
    as (token & code & calls & _ & Hrun & Hother & _).
  exists code, calls. split; [exact Hrun | exact Hother].
Defined.
